(** * bitcoin_de_trading_scripts: the price_chart web application

    A shallow embedding of [webgui/price_chart/apis.py] (the HTTP clients
    [BaseQuerry], [BCdeSession] and [Shapeshift]), of the trade table of
    [webgui/price_chart/models.py] and of the [data] view of
    [webgui/price_chart/views.py], followed by the properties of the
    signer, the rate-limited client and the trade ingestor.

    Python text is a [string] holding its UTF-8 bytes: byte-wise
    lexicographic order on UTF-8 coincides with Python's code-point order
    on [str], and [str.encode()] is the identity on this representation.
    Numbers are integers ([Z]): a decoded body holds no fractional number,
    and time is kept to the second.  What Python's library and the platform
    decide about text that is to be read as a number and about the range of
    timestamps is taken from a [Host]. *)

From stdpp Require Import gmap strings list fin_maps sorting.
From Stdlib Require Import ZArith Ascii String DecimalString Sorted Permutation.

Local Open Scope string_scope.
Local Open Scope Z_scope.

Set Warnings "-register-all".

(** ** Python values *)

(** Scalars: what [str()] and ["{}".format] render without quoting. *)
Inductive atom : Type :=
| ANone
| ABool (b : bool)
| AInt (n : Z)
| AStr (s : string).

(** The values a decoded JSON body is made of.  A [dict] keeps its items in
    insertion order. *)
Inductive value : Type :=
| VAtom (a : atom)
| VList (l : list value)
| VDict (d : list (string * value)).

Abbreviation VNone := (VAtom ANone).
Abbreviation VBool b := (VAtom (ABool b)).
Abbreviation VInt n := (VAtom (AInt n)).
Abbreviation VStr s := (VAtom (AStr s)).

(** [str(n)] for an [int]. *)
Definition str_of_Z (n : Z) : string := NilZero.string_of_int (Z.to_int n).

(** [str(a)], which is also what a bare ["{}"] field of [str.format] gives. *)
Definition py_str (a : atom) : string :=
  match a with
  | ANone => "None"
  | ABool true => "True"
  | ABool false => "False"
  | AInt n => str_of_Z n
  | AStr s => s
  end.

(** Truth value of an object in a condition ([if x:], [not x]). *)
Definition atom_truthy (a : atom) : bool :=
  match a with
  | ANone => false
  | ABool b => b
  | AInt n => negb (n =? 0)
  | AStr s => negb (String.eqb s "")
  end.

Definition truthy (v : value) : bool :=
  match v with
  | VAtom a => atom_truthy a
  | VList l => match l with [] => false | _ => true end
  | VDict d => match d with [] => false | _ => true end
  end.

(** [d[k]] on the items of a dict; [None] stands for a missing key. *)
Fixpoint dict_get {A : Type} (k : string) (d : list (string * A)) : option A :=
  match d with
  | [] => None
  | (k', v) :: d' => if String.eqb k k' then Some v else dict_get k d'
  end.

(** [d[k] = v]: overwrite in place, or append a new item. *)
Fixpoint dict_set {A : Type} (k : string) (v : A) (d : list (string * A))
  : list (string * A) :=
  match d with
  | [] => [(k, v)]
  | (k', v') :: d' =>
      if String.eqb k k' then (k, v) :: d' else (k', v') :: dict_set k v d'
  end.

(** ** Exceptions and the state-and-exception monad *)

Inductive exn : Type :=
| KeyError (k : string)
| TypeError
| ValueError
| OverflowError
| OSError
| ConnectionError
| Timeout
| DatabaseError.

Inductive result (A : Type) : Type :=
| Ok (a : A)
| Raise (e : exn).
Arguments Ok {A} a.
Arguments Raise {A} e.

(** A computation over a mutable state [S] that returns or raises.  The
    state that comes back with [Raise] is the state at the point where the
    exception left the computation. *)
Definition M (S A : Type) : Type := S -> result A * S.

Definition ret {S A} (a : A) : M S A := fun s => (Ok a, s).
Definition raise {S A} (e : exn) : M S A := fun s => (Raise e, s).
Definition bind {S A B} (m : M S A) (k : A -> M S B) : M S B :=
  fun s => match m s with
           | (Ok a, s') => k a s'
           | (Raise e, s') => (Raise e, s')
           end.
Definition get {S} : M S S := fun s => (Ok s, s).
Definition put {S} (s : S) : M S unit := fun _ => (Ok tt, s).
Definition of_result {S A} (r : result A) : M S A := fun s => (r, s).

Notation "'do' x <- m ; k" := (bind m (fun x => k))
  (at level 10, x name, m at level 100, k at level 200).
Notation "'do' ' p <- m ; k" := (bind m (fun x => match x with p => k end))
  (at level 10, p pattern, m at level 100, k at level 200).
Notation "'run' m ; k" := (bind m (fun _ => k))
  (at level 10, m at level 100, k at level 200).

(** Run a computation on the second component of a pair of states. *)
Definition on_snd {S T A} (m : M T A) : M (S * T) A :=
  fun st => let '(r, t') := m (snd st) in (r, (fst st, t')).

(** [try: m  except Exception: handler]. *)
Definition try_except {S A} (m : M S A) (handler : exn -> M S A) : M S A :=
  fun s => match m s with
           | (Ok a, s') => (Ok a, s')
           | (Raise e, s') => handler e s'
           end.

(** ** The outside world of the HTTP clients *)

(** Headers are a [dict] from text to text. *)
Definition Headers : Type := list (string * string).

(** One call of [requests.get(url, headers=headers)]. *)
Record Request : Type := mkRequest {
  req_url : string;
  req_headers : option Headers
}.

(** What the clients read of a [requests.Response]: the status code and
    the outcome of [response.json()], [None] when the body is not valid
    JSON and [json()] raises. *)
Record Response : Type := mkResponse {
  status_code : Z;
  json : option value
}.

(** [bool(response)] is [response.ok]: false exactly for the 4xx and 5xx
    status codes. *)
Definition response_truthy (r : Response) : bool :=
  negb ((400 <=? status_code r) && (status_code r <? 600)).

(** What the network does with a request: the transport fails with an
    exception, or a response arrives. *)
Inductive outcome : Type :=
| Fails (e : exn)
| Answers (r : Response).

(** The clock read by [time.time()] (whole seconds) and the requests
    handed to [requests.get] so far, oldest first. *)
Record World : Type := mkWorld {
  clock : Z;
  calls : list Request
}.

(** [list.sort()] on text: insertion into an ordered list, by [<=] on
    strings; equal keys of a sort on text are equal strings, so stability
    does not show. *)
Fixpoint insert_sorted (x : string) (l : list string) : list string :=
  match l with
  | [] => [x]
  | y :: l' => if String.leb x y then x :: l else y :: insert_sorted x l'
  end.

Definition list_sort (l : list string) : list string :=
  foldr insert_sorted [] l.

(** *** Readers of ASCII text for the sample hosts

    [int] and [float] on text, for text in ASCII: blanks around the number
    are dropped, digits may be grouped with single underscores, [float]
    also reads a fraction, an exponent, and the names of the non-finite
    numbers.  The number is computed exactly, not through a 53-bit float,
    and a timestamp is rounded to the microsecond before its whole seconds
    are taken, as [datetime.fromtimestamp] does. *)

Definition is_blank (c : ascii) : bool :=
  let n := Z.of_nat (nat_of_ascii c) in
  ((9 <=? n) && (n <=? 13)) || ((28 <=? n) && (n <=? 32)).

Fixpoint drop_blanks (l : list ascii) : list ascii :=
  match l with
  | c :: l' => if is_blank c then drop_blanks l' else l
  | [] => []
  end.

Definition strip (l : list ascii) : list ascii :=
  rev (drop_blanks (rev (drop_blanks l))).

Definition digit_of (c : ascii) : option Z :=
  let n := Z.of_nat (nat_of_ascii c) in
  if (48 <=? n) && (n <=? 57) then Some (n - 48) else None.

(** The rest of a group of digits of which [count] digits with the value
    [acc] have been read: the value, the number of digits, and what
    follows the group. *)
Fixpoint more_digits (acc : Z) (count : Z) (l : list ascii)
  : Z * Z * list ascii :=
  match l with
  | c :: l' =>
      match digit_of c with
      | Some d => more_digits (10 * acc + d) (count + 1) l'
      | None =>
          if Ascii.eqb c "_"
          then match l' with
               | c2 :: l'' =>
                   match digit_of c2 with
                   | Some d => more_digits (10 * acc + d) (count + 1) l''
                   | None => (acc, count, l)
                   end
               | [] => (acc, count, l)
               end
          else (acc, count, l)
      end
  | [] => (acc, count, [])
  end.

Definition digitpart (l : list ascii) : option (Z * Z * list ascii) :=
  match l with
  | c :: l' =>
      match digit_of c with
      | Some d => Some (more_digits d 1 l')
      | None => None
      end
  | [] => None
  end.

(** An optional sign: [1] or [-1], and what follows it. *)
Definition sign_of (l : list ascii) : Z * list ascii :=
  match l with
  | c :: l' =>
      if Ascii.eqb c "-" then (-1, l')
      else if Ascii.eqb c "+" then (1, l')
      else (1, l)
  | [] => (1, [])
  end.

Definition read_int (s : string) : result Z :=
  let '(sg, l) := sign_of (strip (list_ascii_of_string s)) in
  match digitpart l with
  | Some (n, _, []) => Ok (sg * n)
  | _ => Raise ValueError
  end.

Definition lower (c : ascii) : ascii :=
  let n := nat_of_ascii c in
  if ((65 <=? n) && (n <=? 90))%nat then ascii_of_nat (n + 32) else c.

(** The digits of a decimal number: the digits before and after the point
    as one whole number, the count of those after it, and what follows. *)
Definition number_of (l : list ascii) : option (Z * Z * list ascii) :=
  match digitpart l with
  | Some (i, _, rest) =>
      match rest with
      | c :: rest' =>
          if Ascii.eqb c "."
          then match digitpart rest' with
               | Some (f, nf, rest'') =>
                   Some (i * 10 ^ nf + f, nf, rest'')
               | None => Some (i, 0, rest')
               end
          else Some (i, 0, rest)
      | [] => Some (i, 0, [])
      end
  | None =>
      match l with
      | c :: rest' =>
          if Ascii.eqb c "."
          then match digitpart rest' with
               | Some (f, nf, rest'') => Some (f, nf, rest'')
               | None => None
               end
          else None
      | [] => None
      end
  end.

(** An optional exponent: its value, and what follows. *)
Definition exponent_of (l : list ascii) : option (Z * list ascii) :=
  match l with
  | c :: l' =>
      if Ascii.eqb (lower c) "e"
      then let '(sg, l'') := sign_of l' in
           match digitpart l'' with
           | Some (e, _, rest) => Some (sg * e, rest)
           | None => None
           end
      else Some (0, l)
  | [] => Some (0, [])
  end.

(** The whole seconds of [sg * m * 10 ^ e] seconds after rounding to the
    microsecond, ties to the even one. *)
Definition whole_seconds (sg m e : Z) : Z :=
  let e6 := e + 6 in
  let us :=
    if 0 <=? e6 then m * 10 ^ e6
    else
      let d := 10 ^ (- e6) in
      let q := m / d in
      let r := m mod d in
      if (d <? 2 * r) || ((2 * r =? d) && Z.odd q) then q + 1 else q in
  (sg * us) / 10 ^ 6.

Definition read_float (s : string) : result Z :=
  let '(sg, l) := sign_of (strip (list_ascii_of_string s)) in
  let name := string_of_list_ascii (map lower l) in
  if String.eqb name "inf" || String.eqb name "infinity"
  then Raise OverflowError
  else if String.eqb name "nan" then Raise ValueError
  else
    match number_of l with
    | Some (m, nf, rest) =>
        match exponent_of rest with
        | Some (e, []) =>
            if 400 <? e - nf then
              if m =? 0 then Ok 0 else Raise OverflowError
            else Ok (whole_seconds sg m (e - nf))
        | _ => Raise ValueError
        end
    | None => Raise ValueError
    end.

(** ** models.py and the parts of [datetime] used by views.py *)

(** A fixed-offset [tzinfo]: seconds east of UTC. *)
Record timezone : Type := mkTimezone { utcoffset : Z }.

Definition timezone_utc : timezone := {| utcoffset := 0 |}.

(** A [datetime] with one-second resolution.  The calendar fields (year to
    second) are held as [wall], the number of seconds by which they lie
    after 1970-01-01 00:00:00 on the same wall clock; [tzinfo = None] is a
    naive datetime. *)
Record datetime : Type := mkDatetime {
  wall : Z;
  tzinfo : option timezone
}.

(** [datetime.min] and [datetime.max] as wall-clock seconds
    (0001-01-01 00:00:00 and 9999-12-31 23:59:59). *)
Definition datetime_min_wall : Z := -62135596800.
Definition datetime_max_wall : Z := 253402300799.

(** The host the application runs on, as far as the view depends on it:
    the platform's local zone and time conversion, and the readers of
    Python's library for text that stands for a number (they know Unicode
    digits and blanks, which are not spelled out here).
    - [local_utcoffset t]: the offset of local time from UTC, in seconds
      east, at the instant [t].
    - [float_text s]: [float(s)] for a text [s], the number read taken in
      whole seconds, or the exception raised ([ValueError] for text that is
      no number; for a non-finite number the exception that the conversion
      to a time raises).
    - [int_text s]: [int(s)] for a text [s], or the exception raised.
    - [fromtimestamp_rejects t]: the exception with which
      [datetime.fromtimestamp(t)] refuses the timestamp [t]
      ([OverflowError] outside the platform's [time_t], [OSError] where its
      [localtime] fails, [ValueError] outside the years of [datetime]);
      [None] where it returns. *)
Record Host : Type := mkHost {
  local_utcoffset : Z -> Z;
  float_text : string -> result Z;
  int_text : string -> result Z;
  fromtimestamp_rejects : Z -> option exn
}.

(** An instance of the trade model, with the attribute values as they
    were passed to the constructor.  models.py declares the model as
    [BitcoinDe]; views.py imports it under the name [Transaction] (and the
    module apis.py under the name [api_call]). *)
Record BitcoinDe : Type := mkBitcoinDe {
  trading_pair : value;
  date : datetime;
  price : value;
  amount : value;
  tid : value
}.

(** The trade table: at most one row per value of the primary key [tid]. *)
Abbreviation Table := (gmap Z BitcoinDe).

(** ** Sample inputs for the examples *)

Module Fixtures.

(** Stand-ins for the two digest functions: they tag their input instead
    of hashing it, which keeps the signed message readable. *)
Definition tag_md5 (data : string) : string := "md5(" ++ data ++ ")".
Definition tag_hmac (key msg : string) : string :=
  "hmac-sha256(" ++ key ++ "," ++ msg ++ ")".

(** A network that cannot be reached. *)
Definition unreachable : list Request -> Request -> outcome :=
  fun _ _ => Fails ConnectionError.

(** A server that gives the same response to every request. *)
Definition answers (r : Response) : list Request -> Request -> outcome :=
  fun _ _ => Answers r.

Definition http_500 : list Request -> Request -> outcome :=
  answers (mkResponse 500 None).

Definition trade (id unix_time : Z) : value :=
  VDict [("tid", VInt id); ("date", VInt unix_time);
         ("price", VStr "7000.5"); ("amount", VStr "0.1")].

(** A trade history with the ids 5, 6 and 7 and 17 credits left. *)
Definition history_567 : value :=
  VDict [("credits", VInt 17); ("trading_pair", VStr "btceur");
         ("trades", VList [trade 5 1500000100; trade 6 1500000200;
                           trade 7 1500000300])].

(** Id 7 delivered again, together with the new id 8. *)
Definition history_78 : value :=
  VDict [("credits", VInt 16); ("trading_pair", VStr "btceur");
         ("trades", VList [trade 7 1500000300; trade 8 1500000400])].

(** A history of one trade, made at the Unix epoch. *)
Definition history_epoch : value :=
  VDict [("credits", VInt 17); ("trading_pair", VStr "btceur");
         ("trades", VList [trade 5 0])].

(** A successful answer that reports a negative quota. *)
Definition overdrawn : value := VDict [("credits", VInt (-1))].

(** A successful, non-empty answer without a ["credits"] entry. *)
Definition no_credits : value := VDict [("trades", VList [])].

Definition ok_with (body : value) : list Request -> Request -> outcome :=
  answers (mkResponse 200 (Some body)).

Definition world0 : World := mkWorld 1500000000 [].

(** The timestamps a Linux host with a 64-bit [time_t] refuses, for a zone
    with a constant offset: outside [time_t], outside what [localtime] can
    express, and outside the years 1 to 9999 (the day before the timestamp,
    which [fromtimestamp] probes for a repeated hour, included). *)
Definition linux_rejects (offset t : Z) : option exn :=
  if (t <? - 2 ^ 63) || (2 ^ 63 <=? t) then Some OverflowError
  else if (t <? -67768040609740800) || (67768036191676799 <? t)
       then Some OSError
  else if (t + offset - 86400 <? datetime_min_wall)
          || (datetime_max_wall <? t + offset)
       then Some ValueError
  else None.

(** Hosts on UTC and on Central European (winter) Time, for text in
    ASCII. *)
Definition host_utc : Host :=
  {| local_utcoffset := fun _ => 0;
     float_text := read_float;
     int_text := read_int;
     fromtimestamp_rejects := linux_rejects 0 |}.
Definition host_cet : Host :=
  {| local_utcoffset := fun _ => 3600;
     float_text := read_float;
     int_text := read_int;
     fromtimestamp_rejects := linux_rejects 3600 |}.

(** A database that accepts every row. *)
Definition accept_all : BitcoinDe -> option exn := fun _ => None.

(** The row the loop builds on a UTC host for [trade id unix_time]. *)
Definition stored (id unix_time : Z) : BitcoinDe :=
  {| trading_pair := VStr "btceur";
     date := {| wall := unix_time; tzinfo := Some timezone_utc |};
     price := VStr "7000.5";
     amount := VStr "0.1";
     tid := VInt id |}.

(** An answer that delivers id 5 twice, with different times. *)
Definition history_55 : value :=
  VDict [("credits", VInt 17); ("trading_pair", VStr "btceur");
         ("trades", VList [trade 5 1500000100; trade 5 1500000900])].

(** Answers of the market-info service: a rate, and an error. *)
Definition marketinfo_rate : value :=
  VDict [("pair", VStr "btc_eth"); ("rate", VStr "14.2")].
Definition marketinfo_error : value :=
  VDict [("error", VStr "Unknown pair")].

(** A successful answer that reports credits and nothing else. *)
Definition credits_only : value := VDict [("credits", VInt 17)].

(** The form of the [data] page, filled in. *)
Definition form : list (string * string) := [("key", "K"); ("sec", "S")].

End Fixtures.

Section PriceChart.

(** ** apis.py *)

(** The network, as seen through [requests.get]: the outcome of a request
    may depend on the requests made before it. *)
Variable upstream : list Request -> Request -> outcome.

(** [hashlib.md5(data).hexdigest()] and
    [hmac.new(key, msg=msg, digestmod="sha256").hexdigest()], both on
    encoded text. *)
Variable md5_hexdigest : string -> string.
Variable hmac_sha256_hexdigest : string -> string -> string.

Definition requests_get (url : string) (headers : option Headers)
  : M World Response :=
  fun w =>
    let rq := mkRequest url headers in
    let w' := mkWorld (clock w) (calls w ++ [rq])%list in
    match upstream (calls w) rq with
    | Fails e => (Raise e, w')
    | Answers r => (Ok r, w')
    end.

Definition time_time : M World Z := fun w => (Ok (clock w), w).

Definition time_sleep (secs : Z) : M World unit :=
  fun w => (Ok tt, mkWorld (clock w + secs) (calls w)).

(** *** class BaseQuerry *)

Definition query_url (url : string) (headers : option Headers)
  : M World (option Response) :=
  do response <- requests_get url headers;
  if negb (status_code response =? 200) then ret None
  else ret (Some response).

Definition query_json (url : string) (headers : option Headers)
  : M World value :=
  do response <- query_url url headers;
  match response with
  | None => ret VNone
  | Some r =>
      if negb (response_truthy r) then ret VNone
      else
        try_except
          (match json r with
           | Some v => ret v
           | None => raise ValueError
           end)
          (fun ex => ret VNone)
  end.

(** *** class BCdeSession *)

Record BCdeSession : Type := mkBCdeSession {
  c_private_key : string;
  c_public_key : string;
  api_credits : value;
  C_API_URL : string
}.

Definition BCdeSession_init (c_public_key c_private_key : string)
    (api_credits : value) : BCdeSession :=
  {| c_private_key := c_private_key;
     c_public_key := c_public_key;
     api_credits := api_credits;
     C_API_URL := "https://api.bitcoin.de/v2" |}.

(** The default of the [api_credits] argument. *)
Definition default_api_credits : value := VInt 20.

Definition generate_api_signature (self : BCdeSession)
    (method url nonce : string) (post_params : option (list (string * atom)))
  : string :=
  let sorted_params :=
    match post_params with
    | Some ((_ :: _) as items) =>
        list_sort
          (foldl (fun acc '(key, val) =>
                    let param := key ++ "=" ++ py_str val in
                    (acc ++ [param])%list)
                 [] items)
    | _ => []
    end in
  let query_string := String.concat "?" sorted_params in
  let hashed_query_string := md5_hexdigest query_string in
  let hmac_data :=
    method ++ "#" ++ url ++ "#" ++ c_public_key self ++ "#" ++ nonce
           ++ "#" ++ hashed_query_string in
  hmac_sha256_hexdigest (c_private_key self) hmac_data.

(** [x < 3] for a Python object [x] and the [int] 3. *)
Definition lt_3 (x : value) : result bool :=
  match x with
  | VInt n => Ok (n <? 3)
  | VBool b => Ok true
  | _ => Raise TypeError
  end.

(** [obj[key]] for a text key. *)
Definition subscript (obj : value) (key : string) : result value :=
  match obj with
  | VDict d =>
      match dict_get key d with
      | Some v => Ok v
      | None => Raise (KeyError key)
      end
  | _ => Raise TypeError
  end.

Definition set_api_credits (c : value) : M (BCdeSession * World) unit :=
  fun st =>
    let self := fst st in
    (Ok tt, (mkBCdeSession (c_private_key self) (c_public_key self) c
                           (C_API_URL self), snd st)).

Definition query (url method : string)
    (post_params : option (list (string * atom))) (headers : option Headers)
  : M (BCdeSession * World) value :=
  do st <- get;
  let self := fst st in
  let headers := match headers with
                 | Some ((_ :: _) as h) => h
                 | _ => []
                 end in
  do low <- of_result (lt_3 (api_credits self));
  run (if low : bool then on_snd (time_sleep 3) else ret tt);
  let headers := dict_set "X-API-KEY" (c_public_key self) headers in
  do now <- on_snd time_time;
  let nonce := str_of_Z now in
  let headers := dict_set "X-API-NONCE" nonce headers in
  let headers :=
    dict_set "X-API-SIGNATURE"
             (generate_api_signature self method url nonce post_params)
             headers in
  do response <- on_snd (query_json url (Some headers));
  run (if truthy response
       then do credits <- of_result (subscript response "credits");
            set_api_credits credits
       else ret tt);
  ret response.

Definition get_public_trade_history (since_tid : option Z)
    (trading_pair : string) : M (BCdeSession * World) value :=
  do st <- get;
  let self := fst st in
  let url := C_API_URL self ++ "/trades/history?trading_pair=" ++ trading_pair in
  let url := match since_tid with
             | Some n => if negb (n =? 0) then url ++ "&since_tid=" ++ str_of_Z n
                         else url
             | None => url
             end in
  query url "GET" None None.

(** The default of the [trading_pair] argument. *)
Definition default_trading_pair : string := "btceur".

(** *** class Shapeshift *)

Record Shapeshift : Type := mkShapeshift {
  API_BASE_URL : string;
  api_key : option string
}.

Definition Shapeshift_init (api_key : option string) : Shapeshift :=
  {| API_BASE_URL := "https://shapeshift.io"; api_key := api_key |}.

(** [x in range(n)] for an [int] [x]. *)
Definition in_range (x n : Z) : bool := (0 <=? x) && (x <? n).

Definition recent_tx (self : Shapeshift) (max_trans : Z) : M World value :=
  if negb (in_range max_trans 51) then ret VNone
  else
    let url := API_BASE_URL self ++ "/recenttx/" ++ str_of_Z max_trans in
    query_json url None.

(** ** models.py and the parts of [datetime] used by views.py, continued *)

(** The host of the application. *)
Variable host : Host.

(** [datetime.fromtimestamp(t)] with no [tz] argument: the naive local
    date and time of the instant [t], unless the host refuses [t]. *)
Definition datetime_fromtimestamp (t : Z) : result datetime :=
  match fromtimestamp_rejects host t with
  | Some e => Raise e
  | None => Ok {| wall := t + local_utcoffset host t; tzinfo := None |}
  end.

(** [dt.replace(tzinfo=tz)]: same calendar fields, new zone label. *)
Definition replace_tzinfo (dt : datetime) (tz : timezone) : datetime :=
  {| wall := wall dt; tzinfo := Some tz |}.

(** [dt.timestamp()] of an aware datetime: the instant it denotes, in
    seconds since the Unix epoch. *)
Definition instant (dt : datetime) : option Z :=
  match tzinfo dt with
  | Some tz => Some (wall dt - utcoffset tz)
  | None => None
  end.

(** [float(n)] for an [int]: the nearest number with 53 significant bits,
    ties to the even one, which is again a whole number; [OverflowError]
    from [2 ^ 1024] on. *)
Definition float_of_int (n : Z) : result Z :=
  let a := Z.abs n in
  let k := Z.log2 a + 1 - 53 in
  if k <=? 0 then Ok n
  else
    let q := Z.shiftr a k in
    let r := a - Z.shiftl q k in
    let half := 2 ^ (k - 1) in
    let q' := if (half <? r) || ((r =? half) && Z.odd q) then q + 1 else q in
    let m := Z.shiftl q' k in
    if 2 ^ 1024 <=? m then Raise OverflowError else Ok (Z.sgn n * m).

(** [float(x)].  Text is read by the host's library. *)
Definition py_float (x : value) : result Z :=
  match x with
  | VInt n => float_of_int n
  | VBool b => Ok (if b then 1 else 0)
  | VStr s => float_text host s
  | _ => Raise TypeError
  end.

(** [for row in x]: the elements a loop over [x] visits.  A dict yields its
    keys and text its characters (here: its bytes). *)
Definition iterate (x : value) : result (list value) :=
  match x with
  | VList l => Ok l
  | VDict d => Ok (map (fun kv => VStr (fst kv)) d)
  | VStr s => Ok (map (fun c => VStr (String c "")) (list_ascii_of_string s))
  | _ => Raise TypeError
  end.

(** The value [PositiveIntegerField] sends to the database for [tid]:
    [int(tid)], and NULL ([None]) for [None].  Text is read by the host's
    library. *)
Definition prep_tid (v : value) : result (option Z) :=
  match v with
  | VNone => Ok None
  | VInt n => Ok (Some n)
  | VBool b => Ok (Some (if b then 1 else 0))
  | VStr s => match int_text host s with
              | Ok n => Ok (Some n)
              | Raise e => Raise e
              end
  | _ => Raise TypeError
  end.

(** What the field conversions of the other columns and the database
    backend refuse in a row (decimal and text columns, the range of
    [tid]); [None] when the row is accepted.  *)
Variable backend_rejects : BitcoinDe -> option exn.

(** [instance.save()] with the primary key set and no default on it: an
    UPDATE of the row with that key and, when there is none, an INSERT. *)
Definition save (instance : BitcoinDe) : M Table unit :=
  do key <- of_result (prep_tid (tid instance));
  match key with
  | None => raise DatabaseError
  | Some k =>
      match backend_rejects instance with
      | Some e => raise e
      | None => fun db => (Ok tt, <[k := instance]> db)
      end
  end.

(** ** views.py *)

(** The state the [data] view works on: the trade table and the world of
    the HTTP client. *)
Definition Site : Type := Table * World.

Definition on_fst {S T A} (m : M S A) : M (S * T) A :=
  fun st => let '(r, s') := m (fst st) in (r, (s', snd st)).

(** Run a method of a freshly built object that the caller drops
    afterwards. *)
Definition with_self {X A} (self : X) (m : M (X * World) A) : M World A :=
  fun w => let '(r, st') := m (self, w) in (r, snd st').

(** [with transaction.atomic(): body]: when an exception leaves the block
    the table is rolled back to its state on entry. *)
Definition transaction_atomic {A} (body : M Site A) : M Site A :=
  fun st =>
    match body st with
    | (Ok a, st') => (Ok a, st')
    | (Raise e, st') => (Raise e, (fst st, snd st'))
    end.

Fixpoint for_each {S A} (l : list A) (body : A -> M S unit) : M S unit :=
  match l with
  | [] => ret tt
  | x :: l' => run body x; for_each l' body
  end.

(** [Transaction.objects.all().aggregate(Max('tid'))]: a dict with the one
    key ['tid__max'], whose value is [None] on an empty table. *)
Definition aggregate_max_tid (db : Table) : list (string * option Z) :=
  [("tid__max",
    foldr (fun k acc => match acc with
                        | None => Some k
                        | Some m => Some (Z.max k m)
                        end)
          None (map fst (map_to_list db)))].

(** [Transaction.objects.order_by('tid')]. *)
Definition tid_le (a b : Z * BitcoinDe) : Prop := fst a <= fst b.

#[global] Instance tid_le_dec : RelDecision tid_le :=
  fun a b => decide (fst a <= fst b).

Definition order_by_tid (db : Table) : list BitcoinDe :=
  map snd (merge_sort tid_le (map_to_list db)).

(** [l[-n:]]. *)
Definition last_n {A} (n : nat) (l : list A) : list A :=
  drop (List.length l - n)%nat l.

(** The body of the insert loop for one [row] of the answer [new_trades]. *)
Definition persist_row (new_trades row : value) : M Table unit :=
  do d <- of_result (subscript row "date");
  do t <- of_result (py_float d);
  do timestamp <- of_result (datetime_fromtimestamp t);
  do r_tid <- of_result (subscript row "tid");
  let r_date := replace_tzinfo timestamp timezone_utc in
  do r_price <- of_result (subscript row "price");
  do r_amount <- of_result (subscript row "amount");
  do r_pair <- of_result (subscript new_trades "trading_pair");
  let insert := {| tid := r_tid; date := r_date; price := r_price;
                   amount := r_amount; trading_pair := r_pair |} in
  save insert.

(** The block under [if new_trades:]. *)
Definition persist (new_trades : value) : M Site unit :=
  transaction_atomic
    (do trades <- of_result (subscript new_trades "trades");
     do rows <- of_result (iterate trades);
     for_each rows (fun row => on_fst (persist_row new_trades row))).

(** The context handed to the template. *)
Record Context : Type := mkContext {
  ctx_data : list BitcoinDe;
  ctx_num_total : nat
}.

(** [request.POST[k]]. *)
Definition post_get (POST : list (string * string)) (k : string)
  : result string :=
  match dict_get k POST with
  | Some v => Ok v
  | None => Raise (KeyError k)
  end.

Definition nonempty_str (s : string) : bool := negb (String.eqb s "").

Definition data (POST : list (string * string)) : M Site Context :=
  do has_keys <-
    (match POST with
     | [] => ret false
     | _ => do key <- of_result (post_get POST "key");
            if nonempty_str key
            then do sec <- of_result (post_get POST "sec");
                 ret (nonempty_str sec)
            else ret false
     end);
  run (if has_keys : bool then
         do key <- of_result (post_get POST "key");
         do sec <- of_result (post_get POST "sec");
         let api := BCdeSession_init key sec default_api_credits in
         do st <- get;
         let max_tid_agg := aggregate_max_tid (fst st) in
         let max_tid := Some 0 in
         do max_tid <-
           of_result (match max_tid_agg with
                      | [] => Ok max_tid
                      | _ => match dict_get "tid__max" max_tid_agg with
                             | Some m => Ok m
                             | None => Raise (KeyError "tid__max")
                             end
                      end);
         do new_trades <-
           on_snd (with_self api
                     (get_public_trade_history max_tid default_trading_pair));
         if truthy new_trades then persist new_trades else ret tt
       else ret tt);
  do st <- get;
  let data_list := order_by_tid (fst st) in
  ret {| ctx_data := last_n 100 data_list;
         ctx_num_total := List.length data_list |}.

(** * Vocabulary of the properties *)

Definition str_le (a b : string) : Prop := String.leb a b = true.

(** The rendering of one parameter, in the words of the specification:
    [key=value]. *)
Definition render_param (kv : string * atom) : string :=
  fst kv ++ "=" ++ py_str (snd kv).

(** The items of an optional mapping; an absent mapping has none. *)
Definition items_of (post_params : option (list (string * atom)))
  : list (string * atom) :=
  match post_params with
  | Some items => items
  | None => []
  end.

(** The result of [query_json] as a function of what the network did. *)
Definition json_result (o : outcome) : result value :=
  match o with
  | Fails e => Raise e
  | Answers r =>
      if status_code r =? 200
      then match json r with
           | Some v => Ok v
           | None => Ok VNone
           end
      else Ok VNone
  end.

(** The world once [rq] has been handed to [requests.get]. *)
Definition after_call (w : World) (rq : Request) : World :=
  mkWorld (clock w) (calls w ++ [rq])%list.

(** The headers [query] sends: the caller's, with the three API headers
    set. *)
Definition signed_headers (self : BCdeSession) (method url : string)
    (now : Z) (post_params : option (list (string * atom)))
    (headers : option Headers) : Headers :=
  dict_set "X-API-SIGNATURE"
    (generate_api_signature self method url (str_of_Z now) post_params)
    (dict_set "X-API-NONCE" (str_of_Z now)
       (dict_set "X-API-KEY" (c_public_key self)
          (match headers with
           | Some ((_ :: _) as h) => h
           | _ => []
           end))).

Definition with_api_credits (self : BCdeSession) (c : value) : BCdeSession :=
  mkBCdeSession (c_private_key self) (c_public_key self) c (C_API_URL self).

(** The world in which the request of [query] is made: three seconds
    later when the counter was below 3. *)
Definition throttled (low : bool) (w : World) : World :=
  if low then mkWorld (clock w + 3) (calls w) else w.

(** [needle in haystack] on text. *)
Fixpoint has_substring (needle haystack : string) : bool :=
  String.prefix needle haystack ||
  match haystack with
  | EmptyString => false
  | String _ rest => has_substring needle rest
  end.

(** What a caller can do with a session. *)
Inductive operation : Type :=
| OpQuery (url method : string)
          (post_params : option (list (string * atom)))
          (headers : option Headers)
| OpTradeHistory (since_tid : option Z) (market : string)
| OpSignature (method url nonce : string)
              (post_params : option (list (string * atom))).

(** The session and the world after one operation, whether it returned or
    raised. *)
Definition perform (st : BCdeSession * World) (op : operation)
  : BCdeSession * World :=
  match op with
  | OpQuery url method post_params headers =>
      snd (query url method post_params headers st)
  | OpTradeHistory since_tid market =>
      snd (get_public_trade_history since_tid market st)
  | OpSignature _ _ _ _ => st
  end.

Definition perform_all (ops : list operation) (st : BCdeSession * World)
  : BCdeSession * World :=
  foldl perform st ops.

(** [x >= 0] for an [int] [x]. *)
Definition nonneg_int (v : value) : bool :=
  match v with
  | VInt n => 0 <=? n
  | _ => false
  end.

(** Every ["credits"] entry of a JSON body the network delivers
    satisfies [P]. *)
Definition reported_credits (P : value -> Prop) : Prop :=
  forall hist rq r body c,
    upstream hist rq = Answers r ->
    json r = Some body ->
    subscript body "credits" = Ok c ->
    P c.

(** The successful response of an operation made in the state [st]: the
    non-empty body it returns; [None] when it returns an empty result,
    raises, or makes no call. *)
Definition returned (st : BCdeSession * World) (op : operation)
  : option value :=
  match op with
  | OpQuery url method post_params headers =>
      match fst (query url method post_params headers st) with
      | Ok response => if truthy response then Some response else None
      | Raise _ => None
      end
  | OpTradeHistory since_tid market =>
      match fst (get_public_trade_history since_tid market st) with
      | Ok response => if truthy response then Some response else None
      | Raise _ => None
      end
  | OpSignature _ _ _ _ => None
  end.

(** The successful responses of a run of operations, oldest first. *)
Fixpoint successes (ops : list operation) (st : BCdeSession * World)
  : list value :=
  match ops with
  | [] => []
  | op :: ops' =>
      (match returned st op with
       | Some body => [body]
       | None => []
       end ++ successes ops' (perform st op))%list
  end.

(** The key and the model instance the loop body saves for one [row], or
    the exception the body raises: the steps of [persist_row] up to the
    write. *)
Definition row_instance (new_trades row : value) : result (Z * BitcoinDe) :=
  fst ((do d <- of_result (subscript row "date");
        do t <- of_result (py_float d);
        do timestamp <- of_result (datetime_fromtimestamp t);
        do r_tid <- of_result (subscript row "tid");
        let r_date := replace_tzinfo timestamp timezone_utc in
        do r_price <- of_result (subscript row "price");
        do r_amount <- of_result (subscript row "amount");
        do r_pair <- of_result (subscript new_trades "trading_pair");
        let insert := {| tid := r_tid; date := r_date; price := r_price;
                         amount := r_amount; trading_pair := r_pair |} in
        do key <- of_result (prep_tid r_tid);
        match key with
        | None => raise DatabaseError
        | Some k =>
            match backend_rejects insert with
            | Some e => raise e
            | None => ret (k, insert)
            end
        end) tt).

(** The instances of a list of rows, in order; the exception of the first
    row that raises. *)
Fixpoint instances (new_trades : value) (rows : list value)
  : result (list (Z * BitcoinDe)) :=
  match rows with
  | [] => Ok []
  | row :: rows' =>
      match row_instance new_trades row with
      | Ok kv =>
          match instances new_trades rows' with
          | Ok kvs => Ok (kv :: kvs)
          | Raise e => Raise e
          end
      | Raise e => Raise e
      end
  end.

(** The rows of an upstream answer, as the loop visits them. *)
Definition rows_of (new_trades : value) : result (list value) :=
  match subscript new_trades "trades" with
  | Ok trades => iterate trades
  | Raise e => Raise e
  end.

(** The writes of a whole answer. *)
Definition batch (new_trades : value) : result (list (Z * BitcoinDe)) :=
  match rows_of new_trades with
  | Ok rows => instances new_trades rows
  | Raise e => Raise e
  end.

(** Upserts applied in order. *)
Definition write_all (kvs : list (Z * BitcoinDe)) (db : Table) : Table :=
  foldl (fun m kv => <[fst kv := snd kv]> m) db kvs.


(** * The rest of apis.py *)

(** [needle in x] for a text [needle]: a key of a dict, an element of a
    list, a piece of a text; numbers, booleans and [None] are not
    containers. *)
Definition py_in (needle : string) (x : value) : result bool :=
  match x with
  | VDict d => Ok (match dict_get needle d with Some _ => true | None => false end)
  | VList l =>
      Ok (existsb (fun v => match v with
                            | VStr s => String.eqb needle s
                            | _ => false
                            end) l)
  | VStr s => Ok (has_substring needle s)
  | _ => Raise TypeError
  end.

(** *** class Shapeshift, continued *)

Definition get_marketinfo (self : Shapeshift) (curIn curOut : string)
  : M World value :=
  let url := API_BASE_URL self ++ "/marketinfo/" ++ curIn ++ "_" ++ curOut in
  do response <- query_json url None;
  if negb (truthy response) then ret VNone
  else
    do has_error <- of_result (py_in "error" response);
    if has_error : bool
    then do message <- of_result (subscript response "error");
         ret VNone
    else ret response.

(** *** class BitcoinCharts *)

Record BitcoinCharts : Type := mkBitcoinCharts {
  BitcoinCharts_API_BASE_URL : string
}.

Definition BitcoinCharts_init : BitcoinCharts :=
  {| BitcoinCharts_API_BASE_URL := "http://api.bitcoincharts.com/v1" |}.

Definition weighted_prices (self : BitcoinCharts) : M World value :=
  let url := BitcoinCharts_API_BASE_URL self ++ "/weighted_prices.json" in
  query_json url None.

Definition market_data (self : BitcoinCharts) : M World value :=
  let url := BitcoinCharts_API_BASE_URL self ++ "/markets.json" in
  query_json url None.

(** *** class XCrypto *)

Record XCrypto : Type := mkXCrypto {
  XCrypto_API_BASE_URL : string
}.

Definition XCrypto_init : XCrypto :=
  {| XCrypto_API_BASE_URL := "https://x-crypto.com/api" |}.

(** [x or ""]. *)
Definition or_empty (x : atom) : atom :=
  if atom_truthy x then x else AStr "".

(** [url += x] for a text [url]: only text can be added to text. *)
Definition str_iadd (url : string) (x : atom) : result string :=
  match x with
  | AStr s => Ok (url ++ s)
  | _ => Raise TypeError
  end.

Definition orderbook (self : XCrypto) (currency1 currency2 : string)
    (maxlist : atom) : M World value :=
  let url := XCrypto_API_BASE_URL self ++ "/orderbook/" ++ currency1 ++ "/"
               ++ currency2 ++ "/" in
  do url <- of_result (str_iadd url (or_empty maxlist));
  query_json url None.

Definition trades (self : XCrypto) (currency1 currency2 : string)
    (maxtrades : atom) : M World value :=
  let url := XCrypto_API_BASE_URL self ++ "/trades/" ++ currency1 ++ "/"
               ++ currency2 in
  do url <- of_result (str_iadd url (or_empty maxtrades));
  query_json url None.

(** * Vocabulary of the further properties *)

(** The request [query] makes, given whether it slept first. *)
Definition query_request (self : BCdeSession) (url method : string)
    (post_params : option (list (string * atom))) (headers : option Headers)
    (low : bool) (w : World) : Request :=
  mkRequest url
    (Some (signed_headers self method url (clock (throttled low w))
                          post_params headers)).

(** The caller's headers as [query] starts from them. *)
Definition given_headers (headers : option Headers) : Headers :=
  match headers with
  | Some h => h
  | None => []
  end.


(** The largest stored [tid], as the view computes it. *)
Definition high_water_mark (db : Table) : option Z :=
  match dict_get "tid__max" (aggregate_max_tid db) with
  | Some m => m
  | None => None
  end.

(** * Properties *)

(** ** The signer *)

Lemma insert_sorted_perm x l : Permutation (x :: l) (insert_sorted x l).
Proof.
  induction l as [|y l IH]; simpl; [reflexivity|].
  destruct (String.leb x y); [reflexivity|].
  rewrite perm_swap. now apply perm_skip.
Qed.

Lemma list_sort_perm l : Permutation l (list_sort l).
Proof.
  induction l as [|x l IH]; simpl; [constructor|].
  etransitivity; [|apply insert_sorted_perm]. now constructor.
Qed.

Lemma insert_sorted_HdRel a x l :
  str_le a x -> HdRel str_le a l -> HdRel str_le a (insert_sorted x l).
Proof.
  intros Hax Hl. destruct l as [|y l]; simpl.
  - now constructor.
  - destruct (String.leb x y); constructor; auto. now inversion Hl.
Qed.

Lemma insert_sorted_Sorted x l :
  Sorted str_le l -> Sorted str_le (insert_sorted x l).
Proof.
  induction 1 as [|y l Hs IH Hhd]; simpl.
  - repeat constructor.
  - destruct (String.leb x y) eqn:E.
    + constructor; [now constructor|]. now constructor.
    + constructor; [exact IH|].
      apply insert_sorted_HdRel; [|exact Hhd].
      destruct (String.leb_total x y) as [H|H]; [congruence|exact H].
Qed.

Lemma list_sort_Sorted l : Sorted str_le (list_sort l).
Proof.
  induction l as [|x l IH]; simpl; [constructor|].
  now apply insert_sorted_Sorted.
Qed.

(** The append loop of the signer builds the list of rendered items. *)
Lemma append_loop_map (items : list (string * atom)) (acc : list string) :
  foldl (fun acc '(key, val) =>
           let param := key ++ "=" ++ py_str val in (acc ++ [param])%list)
        acc items
  = (acc ++ map render_param items)%list.
Proof.
  revert acc. induction items as [|[k v] items IH]; intros acc; simpl.
  - now rewrite app_nil_r.
  - rewrite IH. now rewrite <- app_assoc.
Qed.

Lemma str_le_trans (a b c : string) : str_le a b -> str_le b c -> str_le a c.
Proof.
  unfold str_le, String.leb. revert b c.
  induction a as [|x a IH]; intros [|y b] [|z c]; simpl; try congruence.
  destruct (Ascii.compare x y) eqn:Exy; try congruence.
  - apply Ascii.compare_eq_iff in Exy as ->.
    destruct (Ascii.compare y z); try congruence. apply IH.
  - intros _. unfold Ascii.compare in *.
    destruct (N_of_ascii y ?= N_of_ascii z)%N eqn:Eyz; try congruence;
      intros _.
    + apply N.compare_eq_iff in Eyz. rewrite <- Eyz, Exy. reflexivity.
    + rewrite N.compare_lt_iff in Exy, Eyz.
      assert (H : (N_of_ascii x ?= N_of_ascii z)%N = Lt)
        by (apply N.compare_lt_iff; now apply N.lt_trans with (N_of_ascii y)).
      now rewrite H.
Qed.

Lemma str_le_transitive : Transitive str_le.
Proof. exact str_le_trans. Qed.

Lemma str_le_antisymm : AntiSymm (=) str_le.
Proof. exact String.leb_antisym. Qed.

(** Text has one sorted arrangement. *)
Lemma sorted_unique (l1 l2 : list string) :
  Sorted str_le l1 -> Sorted str_le l2 -> Permutation l1 l2 -> l1 = l2.
Proof.
  exact (@Sorted_unique _ str_le str_le_transitive str_le_antisymm l1 l2).
Qed.

(** The signer computes over the sorted renderings. *)
Lemma generate_api_signature_eq
    (self : BCdeSession) (method url nonce : string)
    (post_params : option (list (string * atom))) :
  generate_api_signature self method url nonce post_params
  = hmac_sha256_hexdigest (c_private_key self)
      (method ++ "#" ++ url ++ "#" ++ c_public_key self ++ "#" ++ nonce
              ++ "#" ++ md5_hexdigest
                          (String.concat "?"
                             (list_sort
                                (map render_param (items_of post_params))))).
Proof.
  unfold generate_api_signature.
  destruct post_params as [[|kv items]|]; simpl items_of; try reflexivity.
  now rewrite append_loop_map.
Qed.

(** C1: the signature is the HMAC-SHA256 hex digest, keyed by the private
    key, of [METHOD#URL#PUBLIC_KEY#NONCE#H], where [H] is the MD5 hex digest
    of the canonical query string: the ['?']-join of the rendered parameters
    [key=value] in lexicographic order.  Such an ordered arrangement of the
    renderings exists, the signature is computed from any of them, and for
    an absent or empty mapping the canonical query string is empty. *)
Theorem generate_api_signature_spec
    (self : BCdeSession) (method url nonce : string)
    (post_params : option (list (string * atom))) :
  (exists canonical : list string,
     Permutation canonical (map render_param (items_of post_params)) /\
     Sorted str_le canonical) /\
  (forall canonical : list string,
     Permutation canonical (map render_param (items_of post_params)) ->
     Sorted str_le canonical ->
     (items_of post_params = [] -> String.concat "?" canonical = "") /\
     generate_api_signature self method url nonce post_params
     = hmac_sha256_hexdigest (c_private_key self)
         (method ++ "#" ++ url ++ "#" ++ c_public_key self ++ "#" ++ nonce
                 ++ "#" ++ md5_hexdigest (String.concat "?" canonical))).
Proof.
  split.
  - exists (list_sort (map render_param (items_of post_params))).
    split; [symmetry; apply list_sort_perm | apply list_sort_Sorted].
  - intros canonical Hperm Hsorted.
    assert (E : canonical
                = list_sort (map render_param (items_of post_params))).
    { apply sorted_unique; [exact Hsorted | apply list_sort_Sorted |].
      etransitivity; [exact Hperm | apply list_sort_perm]. }
    split.
    + intros H0. rewrite E, H0. reflexivity.
    + rewrite E. apply generate_api_signature_eq.
Qed.

(** The order in which the mapping lists its parameters does not matter. *)
Lemma generate_api_signature_order_independent
    (self : BCdeSession) (method url nonce : string)
    (items1 items2 : list (string * atom)) :
  Permutation items1 items2 ->
  generate_api_signature self method url nonce (Some items1)
  = generate_api_signature self method url nonce (Some items2).
Proof.
  intros Hperm. rewrite !generate_api_signature_eq. simpl items_of.
  replace (list_sort (map render_param items2))
    with (list_sort (map render_param items1)); [reflexivity|].
  apply sorted_unique; try apply list_sort_Sorted.
  rewrite <- !list_sort_perm. now apply Permutation_map.
Qed.

(** ** The client: what one call does *)

Lemma query_json_eq (url : string) (headers : option Headers) (w : World) :
  query_json url headers w
  = (json_result (upstream (calls w) (mkRequest url headers)),
     after_call w (mkRequest url headers)).
Proof.
  unfold query_json, query_url, requests_get, bind, json_result, after_call.
  destruct (upstream (calls w) (mkRequest url headers)) as [e|r];
    [reflexivity|].
  destruct (status_code r =? 200) eqn:E; simpl; [|reflexivity].
  apply Z.eqb_eq in E. unfold response_truthy. rewrite E. simpl.
  unfold try_except. now destruct (json r).
Qed.

Lemma query_eq (url method : string)
    (post_params : option (list (string * atom))) (headers : option Headers)
    (self : BCdeSession) (w : World) (low : bool) :
  lt_3 (api_credits self) = Ok low ->
  let w1 := throttled low w in
  let rq := mkRequest url
              (Some (signed_headers self method url (clock w1)
                                    post_params headers)) in
  query url method post_params headers (self, w)
  = match json_result (upstream (calls w) rq) with
    | Raise e => (Raise e, (self, after_call w1 rq))
    | Ok response =>
        if truthy response
        then match subscript response "credits" with
             | Ok c => (Ok response, (with_api_credits self c, after_call w1 rq))
             | Raise e => (Raise e, (self, after_call w1 rq))
             end
        else (Ok response, (self, after_call w1 rq))
    end.
Proof.
  intros Hlow w1 rq.
  unfold query, bind, get, of_result. simpl fst. rewrite Hlow.
  assert (Hc : calls w1 = calls w) by (subst w1; now destruct low).
  replace ((if low then on_snd (time_sleep 3) else ret tt) (self, w))
    with (@Ok unit tt, (self, w1)) by (subst w1; now destruct low).
  unfold on_snd at 1, time_time. simpl.
  unfold on_snd. simpl snd. rewrite query_json_eq. simpl fst.
  fold (signed_headers self method url (clock w1) post_params headers).
  rewrite Hc. subst rq.
  destruct (json_result _) as [response|e]; [|reflexivity].
  destruct (truthy response); [|reflexivity].
  destruct (subscript response "credits") as [c|e]; reflexivity.
Qed.

Lemma query_type_error (url method : string)
    (post_params : option (list (string * atom))) (headers : option Headers)
    (self : BCdeSession) (w : World) (e : exn) :
  lt_3 (api_credits self) = Raise e ->
  query url method post_params headers (self, w) = (Raise e, (self, w)).
Proof.
  intros H. unfold query, bind, get, of_result. simpl fst. now rewrite H.
Qed.

(** Protocol errors and decode errors end in the [None] result. *)
Lemma query_json_protocol_error (url : string) (headers : option Headers)
    (w : World) (r : Response) :
  upstream (calls w) (mkRequest url headers) = Answers r ->
  status_code r <> 200 ->
  fst (query_json url headers w) = Ok VNone.
Proof.
  intros Hup Hst. rewrite query_json_eq, Hup. simpl.
  now apply Z.eqb_neq in Hst as ->.
Qed.

Lemma query_json_decode_error (url : string) (headers : option Headers)
    (w : World) (r : Response) :
  upstream (calls w) (mkRequest url headers) = Answers r ->
  json r = None ->
  fst (query_json url headers w) = Ok VNone.
Proof.
  intros Hup Hj. rewrite query_json_eq, Hup. simpl. rewrite Hj.
  now destruct (status_code r =? 200).
Qed.

(** [get_public_trade_history] is [query] on the URL it builds. *)
Lemma get_public_trade_history_eq (since_tid : option Z) (market : string)
    (self : BCdeSession) (w : World) :
  get_public_trade_history since_tid market (self, w)
  = query
      (match since_tid with
       | Some n =>
           if negb (n =? 0)
           then (C_API_URL self ++ "/trades/history?trading_pair=" ++ market)
                  ++ "&since_tid=" ++ str_of_Z n
           else C_API_URL self ++ "/trades/history?trading_pair=" ++ market
       | None => C_API_URL self ++ "/trades/history?trading_pair=" ++ market
       end)
      "GET" None None (self, w).
Proof. reflexivity. Qed.

Lemma query_calls (url method : string)
    (post_params : option (list (string * atom))) (headers : option Headers)
    (self : BCdeSession) (w : World) (low : bool) :
  lt_3 (api_credits self) = Ok low ->
  calls (snd (snd (query url method post_params headers (self, w))))
  = (calls w ++
     [mkRequest url
        (Some (signed_headers self method url (clock (throttled low w))
                              post_params headers))])%list.
Proof.
  intros Hlow. rewrite (query_eq _ _ _ _ _ _ _ Hlow).
  assert (Hc : calls (throttled low w) = calls w) by now destruct low.
  destruct (json_result _) as [response|e]; simpl; [|now rewrite Hc].
  destruct (truthy response); simpl; [|now rewrite Hc].
  destruct (subscript response "credits"); simpl; now rewrite Hc.
Qed.

(** C3, where the code departs from it: a transport error of
    [requests.get] (network unreachable, timeout) is not turned into the
    [None] result; it leaves [query_url], [query_json], [query] and
    [get_public_trade_history] as the exception it is. *)
Theorem transport_error_escalates
    (url : string) (headers : option Headers) (since_tid : option Z)
    (market : string) (self : BCdeSession) (w : World) (e : exn) (low : bool) :
  (forall rq, upstream (calls w) rq = Fails e) ->
  lt_3 (api_credits self) = Ok low ->
  fst (query_url url headers w) = Raise e /\
  fst (query_json url headers w) = Raise e /\
  fst (query url "GET" None headers (self, w)) = Raise e /\
  fst (get_public_trade_history since_tid market (self, w)) = Raise e.
Proof.
  intros Hup Hlow. repeat split.
  - unfold query_url, requests_get, bind. now rewrite Hup.
  - rewrite query_json_eq, Hup. reflexivity.
  - rewrite (query_eq _ _ _ _ _ _ _ Hlow), Hup. reflexivity.
  - rewrite get_public_trade_history_eq, (query_eq _ _ _ _ _ _ _ Hlow), Hup.
    reflexivity.
Qed.

(** C4: with the mark absent or 0 the one request that
    [get_public_trade_history] makes goes to the URL that ends with the
    trading pair, nothing appended (for the view's call, with the default
    pair, the text [since_tid] does not occur in it); with a mark [N > 0]
    it goes to that URL followed by [&since_tid=N]. *)
Theorem get_public_trade_history_url
    (since_tid : option Z) (market : string) (self : BCdeSession) (w : World)
    (low : bool) :
  lt_3 (api_credits self) = Ok low ->
  let w' := snd (snd (get_public_trade_history since_tid market (self, w))) in
  let base := C_API_URL self ++ "/trades/history?trading_pair=" ++ market in
  (since_tid = None \/ since_tid = Some 0 ->
   exists headers,
     calls w' = (calls w ++ [mkRequest base (Some headers)])%list /\
     (C_API_URL self = "https://api.bitcoin.de/v2" ->
      market = default_trading_pair ->
      has_substring "since_tid" base = false)) /\
  (forall N, since_tid = Some N -> 0 < N ->
   exists headers,
     calls w' =
     (calls w ++
      [mkRequest (base ++ "&since_tid=" ++ str_of_Z N) (Some headers)])%list).
Proof.
  intros Hlow w' base. subst w' base.
  rewrite get_public_trade_history_eq, (query_calls _ _ _ _ _ _ _ Hlow).
  split.
  - intros [-> | ->]; cbn [negb Z.eqb]; (eexists; split; [reflexivity|]);
      intros HC HP; rewrite HC, HP; reflexivity.
  - intros N -> HN.
    assert (E : (N =? 0) = false) by (apply Z.eqb_neq; lia).
    rewrite E. simpl. eexists. reflexivity.
Qed.

(** C7: after [query], when a truthy body came back the counter is exactly
    the value under ["credits"] in it, whatever it held before; when the
    call failed (an empty or [None] result, or an exception) the counter is
    what it was.  A 200 answer with a truthy body that has a ["credits"]
    entry is such a success. *)
Theorem query_overwrites_api_credits
    (url method : string) (post_params : option (list (string * atom)))
    (headers : option Headers) (self : BCdeSession) (w : World) :
  let out := query url method post_params headers (self, w) in
  let self' := fst (snd out) in
  match fst out with
  | Ok response =>
      if truthy response
      then subscript response "credits" = Ok (api_credits self')
      else api_credits self' = api_credits self
  | Raise _ => api_credits self' = api_credits self
  end /\
  (forall low body credits,
     lt_3 (api_credits self) = Ok low ->
     (forall rq, upstream (calls w) rq
                 = Answers (mkResponse 200 (Some body))) ->
     truthy body = true ->
     subscript body "credits" = Ok credits ->
     fst out = Ok body /\ api_credits self' = credits).
Proof.
  intros out self'. subst self' out. split.
  - destruct (lt_3 (api_credits self)) as [low|e] eqn:Hlow.
    + rewrite (query_eq _ _ _ _ _ _ _ Hlow).
      destruct (json_result _) as [response|e]; simpl; [|reflexivity].
      destruct (truthy response) eqn:Ht; simpl.
      * destruct (subscript response "credits") as [c|e] eqn:Hc; simpl.
        -- now rewrite Ht, Hc.
        -- reflexivity.
      * now rewrite Ht.
    + now rewrite (query_type_error _ _ _ _ _ _ _ Hlow).
  - intros low body credits Hlow Hup Ht Hc.
    rewrite (query_eq _ _ _ _ _ _ _ Hlow), Hup. simpl. now rewrite Ht, Hc.
Qed.

(** C10: when the counter can be compared with 3 and the request is
    answered with status 200 and a non-empty JSON object without a
    ["credits"] entry, [query] raises [KeyError] for that key and returns
    nothing. *)
Theorem query_missing_credits_raises_KeyError
    (url method : string) (post_params : option (list (string * atom)))
    (headers : option Headers) (self : BCdeSession) (w : World)
    (low : bool) (d : list (string * value)) :
  lt_3 (api_credits self) = Ok low ->
  (forall rq, upstream (calls w) rq
              = Answers (mkResponse 200 (Some (VDict d)))) ->
  d <> [] ->
  dict_get "credits" d = None ->
  fst (query url method post_params headers (self, w))
  = Raise (KeyError "credits").
Proof.
  intros Hlow Hup Hd Hc.
  rewrite (query_eq _ _ _ _ _ _ _ Hlow), Hup. simpl.
  destruct d as [|kv d']; [congruence|]. simpl in *. now rewrite Hc.
Qed.

(** The part of the range check of [recent_tx] that works: below 0 and
    above 50 nothing is requested and [None] comes back. *)
Lemma recent_tx_rejects (self : Shapeshift) (max_trans : Z) (w : World) :
  max_trans < 0 \/ 50 < max_trans ->
  recent_tx self max_trans w = (Ok VNone, w).
Proof.
  intros H. unfold recent_tx, in_range.
  replace ((0 <=? max_trans) && (max_trans <? 51)) with false; [reflexivity|].
  symmetry. apply andb_false_iff. rewrite Z.leb_gt, Z.ltb_ge. lia.
Qed.

(** C9, where the code departs from it: 0 lies outside [[1, 50]], yet
    [recent_tx] lets it through ([0 in range(51)]) and performs the HTTP
    request for [/recenttx/0]. *)
Theorem recent_tx_zero_is_requested (w : World) :
  calls (snd (recent_tx (Shapeshift_init None) 0 w))
  = (calls w ++ [mkRequest "https://shapeshift.io/recenttx/0" None])%list /\
  fst (recent_tx (Shapeshift_init None) 0 w)
  = json_result
      (upstream (calls w) (mkRequest "https://shapeshift.io/recenttx/0" None)).
Proof.
  unfold recent_tx. simpl. rewrite query_json_eq. split; reflexivity.
Qed.

(** ** The quota counter over a run of operations *)

Lemma json_result_truthy (o : outcome) (response : value) :
  json_result o = Ok response ->
  truthy response = true ->
  exists r, o = Answers r /\ json r = Some response.
Proof.
  destruct o as [e|r]; simpl; [discriminate|].
  destruct (status_code r =? 200).
  - destruct (json r) as [v|] eqn:E.
    + intros [= ->] _. now exists r.
    + intros [= <-]. discriminate.
  - intros [= <-]. discriminate.
Qed.

Lemma query_preserves (P : value -> Prop) (url method : string)
    (post_params : option (list (string * atom))) (headers : option Headers)
    (self : BCdeSession) (w : World) :
  reported_credits P ->
  P (api_credits self) ->
  P (api_credits (fst (snd (query url method post_params headers (self, w))))).
Proof.
  intros Hrep HP.
  destruct (lt_3 (api_credits self)) as [low|e] eqn:Hlow.
  - rewrite (query_eq _ _ _ _ _ _ _ Hlow).
    destruct (json_result _) as [response|e] eqn:Hres; simpl; [|exact HP].
    destruct (truthy response) eqn:Ht; simpl; [|exact HP].
    destruct (subscript response "credits") as [c|e] eqn:Hc; simpl;
      [|exact HP].
    destruct (json_result_truthy _ _ Hres Ht) as (r & Hup & Hj).
    exact (Hrep _ _ _ _ _ Hup Hj Hc).
  - now rewrite (query_type_error _ _ _ _ _ _ _ Hlow).
Qed.

Lemma perform_preserves (P : value -> Prop) (op : operation)
    (st : BCdeSession * World) :
  reported_credits P ->
  P (api_credits (fst st)) ->
  P (api_credits (fst (perform st op))).
Proof.
  intros Hrep HP. destruct st as [self w]. destruct op; simpl.
  - now apply query_preserves.
  - rewrite get_public_trade_history_eq. now apply query_preserves.
  - exact HP.
Qed.

Lemma perform_all_preserves (P : value -> Prop) (ops : list operation)
    (st : BCdeSession * World) :
  reported_credits P ->
  P (api_credits (fst st)) ->
  P (api_credits (fst (perform_all ops st))).
Proof.
  intros Hrep. revert st. unfold perform_all.
  induction ops as [|op ops IH]; intros st HP; simpl; [exact HP|].
  apply IH. now apply perform_preserves.
Qed.

Lemma json_result_truthy_200 (o : outcome) (response : value) :
  json_result o = Ok response ->
  truthy response = true ->
  exists r, o = Answers r /\ status_code r = 200 /\ json r = Some response.
Proof.
  destruct o as [e|r]; simpl; [discriminate|].
  destruct (status_code r =? 200) eqn:E.
  - apply Z.eqb_eq in E. destruct (json r) as [v|] eqn:Hj.
    + intros [= ->] _. now exists r.
    + intros [= <-]. discriminate.
  - intros [= <-]. discriminate.
Qed.

(** One call of [query]: the counter becomes the ["credits"] of the
    non-empty body the call returns, and stays what it was when there is
    none; such a body is the decoded body of a 200 answer. *)
Lemma query_credits_step (url method : string)
    (post_params : option (list (string * atom))) (headers : option Headers)
    (self : BCdeSession) (w : World) :
  let out := query url method post_params headers (self, w) in
  match match fst out with
        | Ok response => if truthy response then Some response else None
        | Raise _ => None
        end with
  | Some body =>
      subscript body "credits" = Ok (api_credits (fst (snd out))) /\
      exists hist rq r,
        upstream hist rq = Answers r /\ status_code r = 200 /\
        json r = Some body
  | None => api_credits (fst (snd out)) = api_credits self
  end.
Proof.
  cbv zeta. destruct (lt_3 (api_credits self)) as [low|e] eqn:Hlow.
  - rewrite (query_eq _ _ _ _ _ _ _ Hlow).
    destruct (json_result _) as [response|e] eqn:Hres; simpl;
      [|reflexivity].
    destruct (truthy response) eqn:Ht; simpl.
    + destruct (subscript response "credits") as [c|e] eqn:Hc; simpl;
        [|reflexivity].
      rewrite Ht. split; [exact Hc|].
      destruct (json_result_truthy_200 _ _ Hres Ht) as (r & Hup & H200 & Hj).
      eauto 6.
    + now rewrite Ht.
  - now rewrite (query_type_error _ _ _ _ _ _ _ Hlow).
Qed.

Lemma perform_credits_step (st : BCdeSession * World) (op : operation) :
  match returned st op with
  | Some body =>
      subscript body "credits" = Ok (api_credits (fst (perform st op))) /\
      exists hist rq r,
        upstream hist rq = Answers r /\ status_code r = 200 /\
        json r = Some body
  | None => api_credits (fst (perform st op)) = api_credits (fst st)
  end.
Proof.
  destruct st as [self w]. destruct op; simpl.
  - apply query_credits_step.
  - rewrite get_public_trade_history_eq. apply query_credits_step.
  - reflexivity.
Qed.

Lemma perform_all_credits (ops : list operation) (st : BCdeSession * World) :
  match last (successes ops st) with
  | Some body =>
      subscript body "credits" = Ok (api_credits (fst (perform_all ops st)))
  | None => api_credits (fst (perform_all ops st)) = api_credits (fst st)
  end /\
  Forall (fun body => exists hist rq r,
            upstream hist rq = Answers r /\ status_code r = 200 /\
            json r = Some body)
         (successes ops st).
Proof.
  unfold perform_all. revert st.
  induction ops as [|op ops IH]; intros st; simpl.
  - split; [reflexivity | constructor].
  - destruct (IH (perform st op)) as [IHlast IHall].
    pose proof (perform_credits_step st op) as Hstep.
    rewrite last_app. split.
    + destruct (last (successes ops (perform st op))) as [body|];
        [exact IHlast|].
      destruct (returned st op) as [body|]; simpl.
      * destruct Hstep as [Hstep _]. now rewrite IHlast.
      * now rewrite IHlast.
    + apply Forall_app. split; [|exact IHall].
      destruct (returned st op) as [body|]; [|constructor].
      constructor; [apply Hstep | constructor].
Qed.

(** C8, as the code has it: the counter is never clamped or checked.
    After any run of operations it is the initial value handed to the
    constructor when no operation of the run had a successful response, and
    otherwise exactly the ["credits"] value of the last successful response
    of the run, each such response being the decoded body of an answer with
    status 200.  It is therefore non-negative provided the initial value is
    a non-negative integer and so is every ["credits"] value the server
    reports. *)
Theorem api_credits_initial_or_last_reported
    (ops : list operation) (c_public_key c_private_key : string)
    (initial : value) (w : World) :
  let st0 := (BCdeSession_init c_public_key c_private_key initial, w) in
  let final := api_credits (fst (perform_all ops st0)) in
  match last (successes ops st0) with
  | Some body => subscript body "credits" = Ok final
  | None => final = initial
  end /\
  Forall (fun body => exists hist rq r,
            upstream hist rq = Answers r /\ status_code r = 200 /\
            json r = Some body)
         (successes ops st0) /\
  (reported_credits (fun c => nonneg_int c = true) ->
   nonneg_int initial = true ->
   nonneg_int final = true).
Proof.
  cbv zeta.
  destruct (perform_all_credits ops
              (BCdeSession_init c_public_key c_private_key initial, w))
    as [Hlast Hall].
  split; [exact Hlast|]. split; [exact Hall|].
  intros Hrep Hinit.
  now apply (perform_all_preserves (fun c => nonneg_int c = true)).
Qed.

(** ** The trade ingestor *)

Lemma persist_row_eq (new_trades row : value) (db : Table) :
  persist_row new_trades row db
  = match row_instance new_trades row with
    | Ok kv => (Ok tt, <[fst kv := snd kv]> db)
    | Raise e => (Raise e, db)
    end.
Proof.
  unfold persist_row, row_instance, save, bind, of_result, raise, ret.
  destruct (subscript row "date") as [d|]; [|reflexivity].
  destruct (py_float d) as [t|]; [|reflexivity].
  destruct (datetime_fromtimestamp t) as [ts|]; [|reflexivity].
  destruct (subscript row "tid") as [r_tid|]; [|reflexivity].
  destruct (subscript row "price") as [r_price|]; [|reflexivity].
  destruct (subscript row "amount") as [r_amount|]; [|reflexivity].
  destruct (subscript new_trades "trading_pair") as [r_pair|]; [|reflexivity].
  simpl. destruct (prep_tid r_tid) as [[k|]|]; try reflexivity.
  destruct (backend_rejects _); reflexivity.
Qed.

Lemma for_each_persist_row (new_trades : value) (rows : list value)
    (db : Table) (w : World) :
  match instances new_trades rows with
  | Ok kvs =>
      for_each rows (fun row => on_fst (persist_row new_trades row)) (db, w)
      = (Ok tt, (write_all kvs db, w))
  | Raise e =>
      exists db',
        for_each rows (fun row => on_fst (persist_row new_trades row)) (db, w)
        = (Raise e, (db', w))
  end.
Proof.
  revert db. induction rows as [|row rows IH]; intros db; simpl.
  - reflexivity.
  - assert (Hstep :
        on_fst (persist_row new_trades row) (db, w)
        = match row_instance new_trades row with
          | Ok kv => (Ok tt, (<[fst kv := snd kv]> db, w))
          | Raise e => (Raise e, (db, w))
          end).
    { unfold on_fst. simpl. rewrite persist_row_eq.
      now destruct (row_instance new_trades row). }
    unfold bind. rewrite Hstep.
    destruct (row_instance new_trades row) as [kv|e].
    + specialize (IH (<[fst kv := snd kv]> db)).
      destruct (instances new_trades rows) as [kvs|e]; exact IH.
    + now exists db.
Qed.

(** [persist] as one step: all the writes of the batch, or none. *)
Lemma persist_eq (new_trades : value) (db : Table) (w : World) :
  persist new_trades (db, w)
  = match batch new_trades with
    | Ok kvs => (Ok tt, (write_all kvs db, w))
    | Raise e => (Raise e, (db, w))
    end.
Proof.
  unfold persist, transaction_atomic, batch, rows_of, bind, of_result.
  destruct (subscript new_trades "trades") as [trades|e]; [|reflexivity].
  destruct (iterate trades) as [rows|e]; [|reflexivity].
  pose proof (for_each_persist_row new_trades rows db w) as H.
  destruct (instances new_trades rows) as [kvs|e].
  - now rewrite H.
  - destruct H as [db' ->]. reflexivity.
Qed.

Lemma write_all_union (kvs : list (Z * BitcoinDe)) (db : Table) :
  write_all kvs db = write_all kvs ∅ ∪ db.
Proof.
  unfold write_all. revert db.
  induction kvs as [|[k v] kvs IH] using rev_ind; intros db.
  - simpl. now rewrite (left_id ∅ (∪)).
  - rewrite !foldl_app. simpl. rewrite (IH db).
    now rewrite insert_union_l.
Qed.

Lemma write_all_idempotent (kvs : list (Z * BitcoinDe)) (db : Table) :
  write_all kvs (write_all kvs db) = write_all kvs db.
Proof.
  rewrite (write_all_union kvs (write_all kvs db)), (write_all_union kvs db).
  now rewrite (assoc (∪)), (idemp (∪)).
Qed.


(** C2: running the persist loop a second time on the same answer leaves
    the table that the first run left, with the same outcome, and the table
    holds one row per [tid]: no key occurs twice among its rows. *)
Theorem persist_twice_same_rows (new_trades : value) (st : Site) :
  let once := persist new_trades st in
  let twice := persist new_trades (snd once) in
  fst (snd twice) = fst (snd once) /\
  fst twice = fst once /\
  NoDup (map fst (map_to_list (fst (snd twice)))).
Proof.
  destruct st as [db w]. cbv zeta. rewrite (persist_eq new_trades db w).
  split; [|split].
  - destruct (batch new_trades) as [kvs|e] eqn:Hb; simpl.
    + rewrite persist_eq, Hb. simpl. apply write_all_idempotent.
    + rewrite persist_eq, Hb. reflexivity.
  - destruct (batch new_trades) as [kvs|e] eqn:Hb; simpl;
      rewrite persist_eq, Hb; reflexivity.
  - apply NoDup_fst_map_to_list.
Qed.




(** The timestamp the loop stores denotes the instant of the record
    shifted by the host's offset from UTC. *)
Lemma stored_instant (new_trades row : value) (k : Z) (inst : BitcoinDe) :
  row_instance new_trades row = Ok (k, inst) ->
  exists d t,
    subscript row "date" = Ok d /\ py_float d = Ok t /\
    instant (date inst) = Some (t + local_utcoffset host t).
Proof.
  unfold row_instance, bind, of_result, raise, ret.
  destruct (subscript row "date") as [d|] eqn:Hd; [|discriminate].
  destruct (py_float d) as [t|] eqn:Ht; [|discriminate].
  unfold datetime_fromtimestamp.
  destruct (fromtimestamp_rejects host t); [discriminate|].
  destruct (subscript row "tid") as [r_tid|]; [|discriminate].
  destruct (subscript row "price") as [r_price|]; [|discriminate].
  destruct (subscript row "amount") as [r_amount|]; [|discriminate].
  destruct (subscript new_trades "trading_pair") as [r_pair|]; [|discriminate].
  simpl. destruct (prep_tid r_tid) as [[k'|]|]; try discriminate.
  destruct (backend_rejects _); [discriminate|].
  intros [= <- <-]. exists d, t. repeat split; [exact Ht|].
  unfold instant, replace_tzinfo, timezone_utc. simpl. f_equal. lia.
Qed.

(** ** The high-water mark of the view *)

Lemma fold_max_spec (l : list Z) :
  match foldr (fun k acc => match acc with
                            | None => Some k
                            | Some m => Some (Z.max k m)
                            end) None l with
  | None => l = []
  | Some m => m ∈ l /\ forall k, k ∈ l -> k <= m
  end.
Proof.
  induction l as [|x l IH]; simpl; [reflexivity|].
  destruct (foldr _ None l) as [m|].
  - destruct IH as [Hin Hmax]. split.
    + destruct (Z.max_spec x m) as [[_ ->]|[_ ->]];
        [now apply list_elem_of_further | apply list_elem_of_here].
    + intros k Hk. apply elem_of_cons in Hk as [->|Hk]; [lia|].
      specialize (Hmax k Hk). lia.
  - subst l. split; [apply list_elem_of_here|].
    intros k Hk. apply list_elem_of_singleton in Hk. lia.
Qed.

(** The world after the view is the world after its one upstream call. *)
Lemma data_world (POST : list (string * string)) (db : Table) (w : World)
    (key sec : string) :
  POST <> [] ->
  post_get POST "key" = Ok key -> nonempty_str key = true ->
  post_get POST "sec" = Ok sec -> nonempty_str sec = true ->
  exists mark : option Z,
    match mark with
    | None => db = ∅
    | Some m => is_Some (db !! m) /\ forall k, is_Some (db !! k) -> k <= m
    end /\
    snd (snd (data POST (db, w)))
    = snd (snd (get_public_trade_history mark default_trading_pair
                  (BCdeSession_init key sec default_api_credits, w))).
Proof.
  intros HP Hk Hkn Hs Hsn.
  exists (foldr (fun k acc => match acc with
                              | None => Some k
                              | Some m => Some (Z.max k m)
                              end) None (map fst (map_to_list db))).
  split.
  - pose proof (fold_max_spec (map fst (map_to_list db))) as H.
    destruct (foldr _ None _) as [m|].
    + destruct H as [Hin Hmax]. split.
      * apply list_elem_of_fmap in Hin as ([k v] & -> & Hin).
        apply elem_of_map_to_list in Hin. simpl. eauto.
      * intros k [v Hv]. apply Hmax.
        apply list_elem_of_fmap. exists (k, v). split; [reflexivity|].
        now apply elem_of_map_to_list.
    + apply fmap_nil_inv in H. now apply map_to_list_empty_iff in H.
  - unfold data, bind, get, ret, of_result.
    destruct POST as [|p POST']; [congruence|].
    rewrite Hk, Hkn, Hs, Hsn. cbn [fst snd].
    unfold aggregate_max_tid. cbn [dict_get String.eqb Ascii.eqb Bool.eqb].
    set (mark := foldr _ None (map fst (map_to_list db))).
    unfold on_snd, with_self. cbn [fst snd].
    destruct (get_public_trade_history mark default_trading_pair _)
      as [[response|e] [api' w']]; cbn [fst snd]; [|reflexivity].
    destruct (truthy response); [|reflexivity].
    rewrite persist_eq. now destruct (batch response).
Qed.

(** The view asks for the trades after the largest stored [tid], and
    without a filter when the table is empty. *)
Lemma data_requests_since_max_tid (POST : list (string * string))
    (db : Table) (w : World) (key sec : string) :
  POST <> [] ->
  post_get POST "key" = Ok key -> nonempty_str key = true ->
  post_get POST "sec" = Ok sec -> nonempty_str sec = true ->
  let w' := snd (snd (data POST (db, w))) in
  let base := "https://api.bitcoin.de/v2/trades/history?trading_pair=btceur" in
  (db = ∅ ->
   exists headers, calls w' = (calls w ++ [mkRequest base (Some headers)])%list)
  /\
  (forall N, is_Some (db !! N) -> (forall k, is_Some (db !! k) -> k <= N) ->
   0 < N ->
   exists headers,
     calls w' =
     (calls w ++
      [mkRequest (base ++ "&since_tid=" ++ str_of_Z N) (Some headers)])%list).
Proof.
  intros HP Hk Hkn Hs Hsn w' base. subst w'.
  destruct (data_world POST db w key sec HP Hk Hkn Hs Hsn)
    as (mark & Hmark & ->).
  rewrite get_public_trade_history_eq.
  rewrite (query_calls _ _ _ _
             (BCdeSession_init key sec default_api_credits) w false eq_refl).
  split.
  - intros ->. destruct mark as [m|].
    + destruct Hmark as [[v Hv] _]. rewrite lookup_empty in Hv. discriminate.
    + eexists. reflexivity.
  - intros N HN Hmax Hpos. destruct mark as [m|].
    + destruct Hmark as [Hm Hmmax].
      assert (m = N) as -> by (specialize (Hmax m Hm); specialize (Hmmax N HN); lia).
      assert (E : (N =? 0) = false) by (apply Z.eqb_neq; lia).
      rewrite E. eexists. reflexivity.
    + subst db. destruct HN as [v Hv]. rewrite lookup_empty in Hv.
      discriminate.
Qed.

(** * Further properties *)

(** ** The signer: what it does not escape *)

Lemma append_assoc (a b c : string) : (a ++ b) ++ c = a ++ (b ++ c).
Proof.
  induction a as [|x a IH]; [reflexivity|].
  change (String x ((a ++ b) ++ c) = String x (a ++ b ++ c)). now f_equal.
Qed.

Lemma append_nil_r (a : string) : a ++ "" = a.
Proof.
  induction a as [|x a IH]; [reflexivity|].
  change (String x (a ++ "") = String x a). now f_equal.
Qed.

(** X1: the signature depends only on the rendered [key=value] strings,
    not on their order: two mappings whose renderings are rearrangements of
    each other (the same parameters listed in another order, or a number
    given once as [int] and once as text) get the same signature. *)
Theorem generate_api_signature_depends_on_renderings
    (self : BCdeSession) (method url nonce : string)
    (items1 items2 : list (string * atom)) :
  Permutation (map render_param items1) (map render_param items2) ->
  generate_api_signature self method url nonce (Some items1)
  = generate_api_signature self method url nonce (Some items2).
Proof.
  intros Hperm. rewrite !generate_api_signature_eq. simpl items_of.
  replace (list_sort (map render_param items2))
    with (list_sort (map render_param items1)); [reflexivity|].
  apply sorted_unique; try apply list_sort_Sorted.
  now rewrite <- !list_sort_perm.
Qed.

(** X2: the canonical query string escapes neither ['?'] nor ['=']: a
    value that contains [?k2=v2] is signed exactly like a mapping that has
    the second parameter [k2]. *)
Theorem generate_api_signature_query_not_escaped
    (self : BCdeSession) (method url nonce : string)
    (k1 v1 k2 : string) (v2 : atom) :
  str_le (k1 ++ "=" ++ v1) (k2 ++ "=" ++ py_str v2) ->
  generate_api_signature self method url nonce
    (Some [(k1, AStr (v1 ++ "?" ++ k2 ++ "=" ++ py_str v2))])
  = generate_api_signature self method url nonce
      (Some [(k1, AStr v1); (k2, v2)]).
Proof.
  intros Hle. rewrite !generate_api_signature_eq. simpl items_of.
  unfold render_param. simpl map. simpl list_sort.
  unfold str_le in Hle. rewrite Hle. simpl String.concat.
  do 2 f_equal. f_equal.
  now rewrite !append_assoc.
Qed.

(** X3: the signed message does not escape its delimiter ['#']: moving a
    ['#'] from the method into the URL leaves the signature unchanged. *)
Theorem generate_api_signature_fields_not_escaped
    (self : BCdeSession) (method part1 part2 nonce : string)
    (post_params : option (list (string * atom))) :
  generate_api_signature self (method ++ "#" ++ part1) part2 nonce post_params
  = generate_api_signature self method (part1 ++ "#" ++ part2) nonce
      post_params.
Proof.
  rewrite !generate_api_signature_eq. f_equal.
  now rewrite !append_assoc.
Qed.

(** ** The client: headers, throttle, requests *)

Lemma dict_get_set_eq {A} (k : string) (v : A) (d : list (string * A)) :
  dict_get k (dict_set k v d) = Some v.
Proof.
  induction d as [|[k' v'] d IH]; simpl.
  - now rewrite String.eqb_refl.
  - destruct (String.eqb k k') eqn:E; simpl.
    + now rewrite String.eqb_refl.
    + now rewrite E.
Qed.

Lemma dict_get_set_ne {A} (k k' : string) (v : A) (d : list (string * A)) :
  k <> k' -> dict_get k' (dict_set k v d) = dict_get k' d.
Proof.
  intros Hne. induction d as [|[k0 v0] d IH]; simpl.
  - apply not_eq_sym in Hne. now apply String.eqb_neq in Hne as ->.
  - destruct (String.eqb k k0) eqn:E; simpl.
    + apply String.eqb_eq in E as <-.
      apply not_eq_sym in Hne. now apply String.eqb_neq in Hne as ->.
    + now rewrite IH.
Qed.

(** X4: the request of [query] carries the public key, the time of the
    request as nonce and the signature of this call for that nonce under
    the three API header names, whatever the caller had put there, and every
    other header of the caller unchanged. *)
Theorem query_sends_api_headers
    (url method : string) (post_params : option (list (string * atom)))
    (headers : option Headers) (self : BCdeSession) (w : World) (low : bool) :
  lt_3 (api_credits self) = Ok low ->
  exists sent : Headers,
    calls (snd (snd (query url method post_params headers (self, w))))
    = (calls w ++ [mkRequest url (Some sent)])%list /\
    let nonce := str_of_Z (if low then clock w + 3 else clock w) in
    dict_get "X-API-KEY" sent = Some (c_public_key self) /\
    dict_get "X-API-NONCE" sent = Some nonce /\
    dict_get "X-API-SIGNATURE" sent
    = Some (generate_api_signature self method url nonce post_params) /\
    forall name,
      name <> "X-API-KEY" -> name <> "X-API-NONCE" ->
      name <> "X-API-SIGNATURE" ->
      dict_get name sent = dict_get name (given_headers headers).
Proof.
  intros Hlow. eexists. split; [apply (query_calls _ _ _ _ _ _ _ Hlow)|].
  assert (Hclock : clock (throttled low w)
                   = if low then clock w + 3 else clock w)
    by now destruct low.
  rewrite Hclock. unfold signed_headers. cbv zeta.
  assert (Hgiven : match headers with
                   | Some ((_ :: _) as h) => h
                   | _ => []
                   end = given_headers headers)
    by now destruct headers as [[|]|].
  rewrite Hgiven. repeat split.
  - rewrite dict_get_set_ne by discriminate.
    rewrite dict_get_set_ne by discriminate. apply dict_get_set_eq.
  - rewrite dict_get_set_ne by discriminate. apply dict_get_set_eq.
  - apply dict_get_set_eq.
  - intros name H1 H2 H3.
    rewrite !dict_get_set_ne by (apply not_eq_sym; assumption).
    reflexivity.
Qed.

(** X5: [query] on a counter below 3 moves the clock on by exactly the 3
    seconds of its sleep, on a counter of 3 or more it takes no time, and
    this holds whether the call then returns or raises. *)
Theorem query_sleeps_iff_low
    (url method : string) (post_params : option (list (string * atom)))
    (headers : option Headers) (self : BCdeSession) (w : World) (c : Z) :
  api_credits self = VInt c ->
  clock (snd (snd (query url method post_params headers (self, w))))
  = if c <? 3 then clock w + 3 else clock w.
Proof.
  intros Hc.
  assert (Hlow : lt_3 (api_credits self) = Ok (c <? 3)) by now rewrite Hc.
  rewrite (query_eq _ _ _ _ _ _ _ Hlow).
  assert (E : clock (throttled (c <? 3) w)
              = if c <? 3 then clock w + 3 else clock w)
    by now destruct (c <? 3).
  destruct (json_result _) as [response|e]; simpl; [|exact E].
  destruct (truthy response); simpl; [|exact E].
  destruct (subscript response "credits"); simpl; exact E.
Qed.

(** X6: [query_json] hands out no data of a failed exchange: a result
    other than [None] is the decoded body of an answer with status 200, and
    the call has made exactly the one request. *)
Theorem query_json_data_only_from_200
    (url : string) (headers : option Headers) (w : World) (v : value) :
  fst (query_json url headers w) = Ok v ->
  v <> VNone ->
  (exists r, upstream (calls w) (mkRequest url headers) = Answers r /\
             status_code r = 200 /\ json r = Some v) /\
  snd (query_json url headers w)
  = mkWorld (clock w) (calls w ++ [mkRequest url headers])%list.
Proof.
  rewrite query_json_eq. simpl. intros Hres Hv. split; [|reflexivity].
  destruct (upstream (calls w) (mkRequest url headers)) as [e|r];
    simpl in Hres; [discriminate|].
  destruct (status_code r =? 200) eqn:E.
  - apply Z.eqb_eq in E. destruct (json r) as [v'|] eqn:Hj.
    + injection Hres as ->. now exists r.
    + injection Hres as <-. congruence.
  - injection Hres as <-. congruence.
Qed.

Lemma query_world (url method : string)
    (post_params : option (list (string * atom))) (headers : option Headers)
    (self : BCdeSession) (w : World) :
  let st' := snd (query url method post_params headers (self, w)) in
  (snd st' = w \/
   exists low rq, snd st' = after_call (throttled low w) rq) /\
  c_public_key (fst st') = c_public_key self /\
  c_private_key (fst st') = c_private_key self /\
  C_API_URL (fst st') = C_API_URL self.
Proof.
  cbv zeta. destruct (lt_3 (api_credits self)) as [low|e] eqn:Hlow.
  - rewrite (query_eq _ _ _ _ _ _ _ Hlow).
    destruct (json_result _) as [response|e]; simpl;
      [|split; [right; eauto | auto]].
    destruct (truthy response); simpl; [|split; [right; eauto | auto]].
    destruct (subscript response "credits"); simpl;
      (split; [right; eauto | auto]).
  - rewrite (query_type_error _ _ _ _ _ _ _ Hlow). simpl. auto.
Qed.

Lemma perform_world (op : operation) (self : BCdeSession) (w : World) :
  let st' := perform (self, w) op in
  (snd st' = w \/
   exists low rq, snd st' = after_call (throttled low w) rq) /\
  c_public_key (fst st') = c_public_key self /\
  c_private_key (fst st') = c_private_key self /\
  C_API_URL (fst st') = C_API_URL self.
Proof.
  destruct op; simpl.
  - apply query_world.
  - rewrite get_public_trade_history_eq. apply query_world.
  - auto.
Qed.


(** X8: no operation changes the identity of a session: the keys and the
    API URL after any run of operations are those it was built with. *)
Theorem perform_all_keeps_keys
    (ops : list operation) (self : BCdeSession) (w : World) :
  let self' := fst (perform_all ops (self, w)) in
  c_public_key self' = c_public_key self /\
  c_private_key self' = c_private_key self /\
  C_API_URL self' = C_API_URL self.
Proof.
  cbv zeta. unfold perform_all. revert self w.
  induction ops as [|op ops IH]; intros self w; simpl foldl; [auto|].
  destruct (perform (self, w) op) as [self1 w1] eqn:E.
  pose proof (perform_world op self w) as (_ & H1 & H2 & H3).
  rewrite E in H1, H2, H3. simpl in H1, H2, H3.
  destruct (IH self1 w1) as (I1 & I2 & I3). repeat split; congruence.
Qed.

(** ** Shapeshift *)

(** X9: [recent_tx] makes a request exactly for [max_trans] from 0 to 50;
    below and above it returns [None] and leaves the world untouched. *)
Theorem recent_tx_requests_iff_in_range
    (self : Shapeshift) (max_trans : Z) (w : World) :
  (0 <= max_trans <= 50 ->
   calls (snd (recent_tx self max_trans w))
   = (calls w ++
      [mkRequest (API_BASE_URL self ++ "/recenttx/" ++ str_of_Z max_trans)
                 None])%list) /\
  (max_trans < 0 \/ 50 < max_trans ->
   recent_tx self max_trans w = (Ok VNone, w)).
Proof.
  unfold recent_tx, in_range. split.
  - intros H.
    replace ((0 <=? max_trans) && (max_trans <? 51)) with true.
    + simpl. now rewrite query_json_eq.
    + symmetry. apply andb_true_iff. rewrite Z.leb_le, Z.ltb_lt. lia.
  - intros H.
    replace ((0 <=? max_trans) && (max_trans <? 51)) with false;
      [reflexivity|].
    symmetry. apply andb_false_iff. rewrite Z.leb_gt, Z.ltb_ge. lia.
Qed.

Lemma get_marketinfo_eq (self : Shapeshift) (curIn curOut : string)
    (w : World) :
  let rq := mkRequest (API_BASE_URL self ++ "/marketinfo/" ++ curIn ++ "_"
                         ++ curOut) None in
  get_marketinfo self curIn curOut w
  = match json_result (upstream (calls w) rq) with
    | Raise e => (Raise e, after_call w rq)
    | Ok response =>
        if truthy response
        then match py_in "error" response with
             | Ok true =>
                 match subscript response "error" with
                 | Ok _ => (Ok VNone, after_call w rq)
                 | Raise e => (Raise e, after_call w rq)
                 end
             | Ok false => (Ok response, after_call w rq)
             | Raise e => (Raise e, after_call w rq)
             end
        else (Ok VNone, after_call w rq)
    end.
Proof.
  cbv zeta. unfold get_marketinfo, bind. rewrite query_json_eq.
  destruct (json_result _) as [response|e]; [|reflexivity].
  destruct (truthy response); simpl; [|reflexivity].
  unfold of_result.
  destruct (py_in "error" response) as [[|]|]; reflexivity.
Qed.

(** X10: what [get_marketinfo] returns is [None] or a non-empty answer in
    which ["error"] does not occur (as a key of an object, an element of a
    list, a piece of a text).  An answer with status 200 that is a list or
    a text in which ["error"] occurs is not turned into [None]: reading
    [response["error"]] for the log raises [TypeError]. *)
Theorem get_marketinfo_returns_no_error
    (self : Shapeshift) (curIn curOut : string) (w : World) :
  (forall v,
     fst (get_marketinfo self curIn curOut w) = Ok v ->
     v = VNone \/ (truthy v = true /\ py_in "error" v = Ok false)) /\
  (forall body,
     (forall rq, upstream (calls w) rq
                 = Answers (mkResponse 200 (Some body))) ->
     (exists l, body = VList l) \/ (exists s, body = VStr s) ->
     py_in "error" body = Ok true ->
     fst (get_marketinfo self curIn curOut w) = Raise TypeError).
Proof.
  split.
  - intros v. rewrite get_marketinfo_eq.
    destruct (json_result _) as [response|e]; simpl; [|discriminate].
    destruct (truthy response) eqn:Ht; simpl; [|intros [= <-]; now left].
    destruct (py_in "error" response) as [[|]|] eqn:Hin; simpl.
    + destruct (subscript response "error"); simpl; [|discriminate].
      intros [= <-]. now left.
    + intros [= <-]. now right.
    + discriminate.
  - intros body Hup Hshape Hin. rewrite get_marketinfo_eq, Hup.
    cbn [json_result status_code json Z.eqb Pos.eqb]. rewrite Hin.
    destruct Hshape as [[l ->]|[s ->]].
    + destruct l as [|x l]; [discriminate|]. reflexivity.
    + destruct s as [|c s]; [discriminate|]. reflexivity.
Qed.

(** X11: an answer with status 200 whose JSON object has an ["error"]
    entry is turned into [None], whatever else the object holds. *)
Theorem get_marketinfo_error_object_is_none
    (self : Shapeshift) (curIn curOut : string) (w : World)
    (d : list (string * value)) (msg : value) :
  (forall rq, upstream (calls w) rq
              = Answers (mkResponse 200 (Some (VDict d)))) ->
  dict_get "error" d = Some msg ->
  fst (get_marketinfo self curIn curOut w) = Ok VNone.
Proof.
  intros Hup Herr. rewrite get_marketinfo_eq, Hup. simpl.
  destruct d as [|kv d']; [reflexivity|]. simpl in *. now rewrite Herr.
Qed.

(** X12: an answer with status 200 whose body is a JSON number other
    than 0, or [true], is not handled: the test for ["error"] raises
    [TypeError]. *)
Theorem get_marketinfo_scalar_body_raises
    (self : Shapeshift) (curIn curOut : string) (w : World) (body : value) :
  (forall rq, upstream (calls w) rq
              = Answers (mkResponse 200 (Some body))) ->
  (exists n, body = VInt n /\ n <> 0) \/ body = VBool true ->
  fst (get_marketinfo self curIn curOut w) = Raise TypeError.
Proof.
  intros Hup Hbody. rewrite get_marketinfo_eq, Hup. simpl.
  destruct Hbody as [(n & -> & Hn)| ->]; simpl; [|reflexivity].
  apply Z.eqb_neq in Hn. now rewrite Hn.
Qed.

(** ** XCrypto *)

(** X13: a limit given as a number other than 0 cannot be added to the
    URL: [orderbook] and [trades] raise [TypeError] before any request. *)
Theorem xcrypto_integer_limit_raises
    (self : XCrypto) (currency1 currency2 : string) (n : Z) (w : World) :
  n <> 0 ->
  orderbook self currency1 currency2 (AInt n) w = (Raise TypeError, w) /\
  trades self currency1 currency2 (AInt n) w = (Raise TypeError, w).
Proof.
  intros Hn. apply Z.eqb_neq in Hn.
  unfold orderbook, trades, bind, of_result, or_empty. simpl.
  rewrite Hn. simpl. split; reflexivity.
Qed.

(** X14: [trades] puts no ['/'] between the second currency and the
    limit: a call with the limit [m] is the call without limit for the
    currency [currency2 ++ m]. *)
Theorem trades_limit_runs_into_currency
    (self : XCrypto) (currency1 currency2 m : string) (w : World) :
  trades self currency1 currency2 (AStr m) w
  = trades self currency1 (currency2 ++ m) ANone w.
Proof.
  unfold trades, bind, of_result, or_empty. simpl.
  destruct (String.eqb m "") eqn:E; simpl.
  - apply String.eqb_eq in E as ->. now rewrite !append_assoc.
  - now rewrite !append_assoc, append_nil_r.
Qed.

(** ** The [data] view *)

Lemma bind_ok {S A B} (m : M S A) (k : A -> M S B) (s : S) (b : B) :
  fst (bind m k s) = Ok b ->
  exists a s1, m s = (Ok a, s1) /\ bind m k s = k a s1.
Proof.
  unfold bind. destruct (m s) as [[a|e] s1]; simpl; [|discriminate].
  intros _. now exists a, s1.
Qed.

(** The table after the view: the table before, with the writes of at most
    one batch. *)
Lemma data_table (POST : list (string * string)) (db : Table) (w : World) :
  exists kvs, fst (snd (data POST (db, w))) = write_all kvs db.
Proof.
  unfold data, bind, get, ret, of_result.
  destruct POST as [|p POST']; [now exists []|].
  set (P := p :: POST').
  destruct (post_get P "key") as [key|e]; [|now exists []].
  destruct (nonempty_str key); [|now exists []].
  destruct (post_get P "sec") as [sec|e]; [|now exists []].
  destruct (nonempty_str sec); [|now exists []].
  cbn [fst snd]. unfold aggregate_max_tid.
  cbn [dict_get String.eqb Ascii.eqb Bool.eqb].
  set (mark := foldr _ None (map fst (map_to_list db))).
  unfold on_snd, with_self. cbn [fst snd].
  destruct (get_public_trade_history mark default_trading_pair _)
    as [[response|e] [api' w']]; cbn [fst snd]; [|now exists []].
  destruct (truthy response); [|now exists []].
  rewrite persist_eq. destruct (batch response) as [kvs|e];
    [now exists kvs | now exists []].
Qed.

Lemma write_all_keeps (kvs : list (Z * BitcoinDe)) (db : Table) (k : Z) :
  is_Some (db !! k) -> is_Some (write_all kvs db !! k).
Proof.
  unfold write_all. revert db.
  induction kvs as [|[k' v] kvs IH]; intros db H; simpl; [exact H|].
  apply IH. destruct (decide (k' = k)) as [->|Hne].
  - rewrite lookup_insert_eq. eauto.
  - now rewrite lookup_insert_ne.
Qed.

Lemma write_all_other (kvs : list (Z * BitcoinDe)) (db : Table) (k : Z) :
  k ∉ map fst kvs -> write_all kvs db !! k = db !! k.
Proof.
  unfold write_all. revert db.
  induction kvs as [|[k' v] kvs IH]; intros db H; simpl; [reflexivity|].
  simpl in H. apply not_elem_of_cons in H as [Hne Hin].
  rewrite IH by exact Hin. now rewrite lookup_insert_ne.
Qed.

Lemma write_all_last (kvs1 kvs2 : list (Z * BitcoinDe)) (db : Table)
    (k : Z) (inst : BitcoinDe) :
  k ∉ map fst kvs2 ->
  write_all (kvs1 ++ (k, inst) :: kvs2) db !! k = Some inst.
Proof.
  intros H. unfold write_all. rewrite foldl_app. simpl.
  fold (write_all kvs1 db).
  fold (write_all kvs2 (<[k:=inst]> (write_all kvs1 db))).
  rewrite write_all_other by exact H. apply lookup_insert_eq.
Qed.

Lemma high_water_mark_spec (db : Table) :
  match high_water_mark db with
  | None => db = ∅
  | Some m => is_Some (db !! m) /\ forall k, is_Some (db !! k) -> k <= m
  end.
Proof.
  unfold high_water_mark, aggregate_max_tid.
  cbn [dict_get String.eqb Ascii.eqb Bool.eqb].
  pose proof (fold_max_spec (map fst (map_to_list db))) as H.
  destruct (foldr _ None _) as [m|].
  - destruct H as [Hin Hmax]. split.
    + apply list_elem_of_fmap in Hin as ([k v] & -> & Hin).
      apply elem_of_map_to_list in Hin. simpl. eauto.
    + intros k [v Hv]. apply Hmax.
      apply list_elem_of_fmap. exists (k, v). split; [reflexivity|].
      now apply elem_of_map_to_list.
  - apply fmap_nil_inv in H. now apply map_to_list_empty_iff in H.
Qed.

(** X15: without credentials the view only renders: on an empty form, an
    empty [key], or a non-empty [key] with an empty [sec], it makes no
    request, leaves the table and the world as they are and returns its
    page. *)
Theorem data_without_credentials_only_renders
    (POST : list (string * string)) (st : Site) :
  POST = [] \/
  dict_get "key" POST = Some "" \/
  (exists key, dict_get "key" POST = Some key /\
               dict_get "sec" POST = Some "") ->
  snd (data POST st) = st /\ exists c, fst (data POST st) = Ok c.
Proof.
  intros H. unfold data, bind, get, ret, of_result, post_get.
  destruct H as [->|[Hk|(key & Hk & Hs)]].
  - simpl. eauto.
  - destruct POST as [|p POST']; [discriminate|].
    rewrite Hk. simpl. eauto.
  - destruct POST as [|p POST']; [discriminate|].
    rewrite Hk. destruct (nonempty_str key); [|simpl; eauto].
    rewrite Hs. simpl. eauto.
Qed.

(** X16: a non-empty form that lacks the field [key], or has a non-empty
    [key] and lacks [sec], is not skipped: the view raises [KeyError] for
    the missing field, before any request. *)
Theorem data_missing_field_raises_KeyError
    (POST : list (string * string)) (st : Site) :
  POST <> [] ->
  (dict_get "key" POST = None ->
   data POST st = (Raise (KeyError "key"), st)) /\
  (forall key, dict_get "key" POST = Some key -> key <> "" ->
   dict_get "sec" POST = None ->
   data POST st = (Raise (KeyError "sec"), st)).
Proof.
  intros HP. destruct POST as [|p POST']; [congruence|].
  unfold data, bind, get, ret, of_result, post_get. split.
  - intros ->. reflexivity.
  - intros key -> Hne ->. apply String.eqb_neq in Hne.
    unfold nonempty_str. now rewrite Hne.
Qed.

Lemma tid_le_transitive : Transitive tid_le.
Proof. intros a b c. unfold tid_le. lia. Qed.

Lemma tid_le_total : Total tid_le.
Proof. intros a b. unfold tid_le. lia. Qed.

Lemma render_after {S A B C} (m1 : M S A) (m2 : A -> M S B) (R : S -> C)
    (s : S) (c : C) :
  fst (bind m1 (fun a => bind (m2 a)
                            (fun _ => bind get (fun st => ret (R st)))) s)
  = Ok c ->
  c = R (snd (bind m1 (fun a => bind (m2 a)
                                  (fun _ => bind get (fun st => ret (R st))))
                s)).
Proof.
  unfold bind, get, ret. destruct (m1 s) as [[a|e] s1]; simpl;
    [|discriminate].
  destruct (m2 a s1) as [[b|e] s2]; simpl; [|discriminate].
  now intros [= <-].
Qed.

(** The page is rendered from the table the view leaves. *)
Lemma data_render (POST : list (string * string)) (st : Site) (c : Context) :
  fst (data POST st) = Ok c ->
  c = {| ctx_data := last_n 100 (order_by_tid (fst (snd (data POST st))));
         ctx_num_total :=
           List.length (order_by_tid (fst (snd (data POST st)))) |}.
Proof.
  intros H.
  exact (render_after _ _
           (fun st : Site =>
              {| ctx_data := last_n 100 (order_by_tid (fst st));
                 ctx_num_total := List.length (order_by_tid (fst st)) |})
           st c H).
Qed.

(** X17: the page shows the rows with the largest [tid]s, at most 100 of
    them, in ascending order of [tid], and counts all rows: the rows of the
    table split into hidden ones followed by shown ones in one ascending
    arrangement. *)
Theorem data_shows_last_100
    (POST : list (string * string)) (st : Site) (c : Context) :
  fst (data POST st) = Ok c ->
  let db' := fst (snd (data POST st)) in
  ctx_num_total c = size db' /\
  exists hidden shown : list (Z * BitcoinDe),
    Permutation (hidden ++ shown)%list (map_to_list db') /\
    StronglySorted tid_le (hidden ++ shown)%list /\
    ctx_data c = map snd shown /\
    List.length shown = Nat.min 100 (size db').
Proof.
  intros H. cbv zeta. pose proof (data_render POST st c H) as Hc.
  set (db' := fst (snd (data POST st))) in *. rewrite Hc.
  cbn [ctx_data ctx_num_total].
  unfold order_by_tid, last_n.
  set (sorted := merge_sort tid_le (map_to_list db')).
  assert (Hperm : Permutation sorted (map_to_list db'))
    by apply merge_sort_Permutation.
  assert (Hlen : List.length sorted = size db').
  { rewrite (Permutation_length Hperm). apply length_map_to_list. }
  rewrite length_map, Hlen. split; [reflexivity|].
  exists (take (size db' - 100) sorted), (drop (size db' - 100) sorted).
  rewrite take_drop. repeat split.
  - exact Hperm.
  - apply (@StronglySorted_merge_sort _ tid_le _ tid_le_transitive
             tid_le_total).
  - apply skipn_map.
  - rewrite length_drop, Hlen. lia.
Qed.

(** X18: the view never removes a trade: a [tid] that is in the table
    before a call of the view is in it afterwards, whatever the form, the
    network and the answer were, and whether the view returned or raised. *)
Theorem data_never_deletes
    (POST : list (string * string)) (st : Site) (k : Z) :
  is_Some (fst st !! k) ->
  is_Some (fst (snd (data POST st)) !! k).
Proof.
  destruct st as [db w]. intros H.
  destruct (data_table POST db w) as [kvs ->]. now apply write_all_keeps.
Qed.

(** X19: the high-water mark never falls: when the table has a largest
    [tid] before the view runs, it has one afterwards and that one is at
    least as large. *)
Theorem high_water_mark_never_falls
    (POST : list (string * string)) (st : Site) (m : Z) :
  high_water_mark (fst st) = Some m ->
  exists m', high_water_mark (fst (snd (data POST st))) = Some m' /\ m <= m'.
Proof.
  destruct st as [db w]. simpl fst at 1. intros Hm.
  pose proof (high_water_mark_spec db) as Hdb. rewrite Hm in Hdb.
  destruct Hdb as [Hin _].
  destruct (data_table POST db w) as [kvs E]. rewrite E.
  apply (write_all_keeps kvs) in Hin.
  pose proof (high_water_mark_spec (write_all kvs db)) as Hdb'.
  destruct (high_water_mark (write_all kvs db)) as [m'|].
  - exists m'. split; [reflexivity|]. now apply Hdb'.
  - rewrite Hdb' in Hin. destruct Hin as [v Hv].
    rewrite lookup_empty in Hv. discriminate.
Qed.

(** X20: the insert loop touches only the [tid]s of its batch: a row whose
    [tid] is the key of no write of the answer is after [persist] what it
    was before. *)
Theorem persist_leaves_other_rows
    (new_trades : value) (st : Site) (k : Z) :
  (forall kvs, batch new_trades = Ok kvs -> k ∉ map fst kvs) ->
  fst (snd (persist new_trades st)) !! k = fst st !! k.
Proof.
  destruct st as [db w]. intros H. rewrite persist_eq.
  destruct (batch new_trades) as [kvs|e]; simpl; [|reflexivity].
  apply write_all_other. now apply H.
Qed.

(** X21: when a [tid] occurs more than once in an answer, the table holds
    the row built from its last occurrence. *)
Theorem persist_last_row_wins
    (new_trades : value) (st : Site)
    (kvs1 kvs2 : list (Z * BitcoinDe)) (k : Z) (inst : BitcoinDe) :
  batch new_trades = Ok (kvs1 ++ (k, inst) :: kvs2)%list ->
  k ∉ map fst kvs2 ->
  fst (persist new_trades st) = Ok tt /\
  fst (snd (persist new_trades st)) !! k = Some inst.
Proof.
  destruct st as [db w]. intros Hb Hk. rewrite persist_eq, Hb. simpl.
  split; [reflexivity|]. now apply write_all_last.
Qed.

(** X22: a successful answer without a ["trades"] entry is not skipped:
    with credentials in the form, a 200 answer whose non-empty object has
    ["credits"] but no ["trades"] makes the view raise [KeyError] for
    ["trades"], and the table stays as it was. *)
Theorem data_answer_without_trades_raises
    (POST : list (string * string)) (db : Table) (w : World)
    (key sec : string) (d : list (string * value)) (credits : value) :
  dict_get "key" POST = Some key -> key <> "" ->
  dict_get "sec" POST = Some sec -> sec <> "" ->
  (forall rq, upstream (calls w) rq
              = Answers (mkResponse 200 (Some (VDict d)))) ->
  dict_get "credits" d = Some credits ->
  dict_get "trades" d = None ->
  fst (data POST (db, w)) = Raise (KeyError "trades") /\
  fst (snd (data POST (db, w))) = db.
Proof.
  intros Hk Hkn Hs Hsn Hup Hc Ht.
  assert (HP : POST <> []) by (intros ->; discriminate).
  apply String.eqb_neq in Hkn, Hsn.
  unfold data, bind, get, ret, of_result, post_get.
  destruct POST as [|p POST']; [congruence|].
  rewrite Hk. unfold nonempty_str. rewrite Hkn, Hs, Hsn. cbn [negb fst snd].
  unfold aggregate_max_tid. cbn [dict_get String.eqb Ascii.eqb Bool.eqb].
  set (mark := foldr _ None (map fst (map_to_list db))).
  unfold on_snd, with_self. cbn [fst snd].
  rewrite get_public_trade_history_eq.
  rewrite (query_eq _ _ _ _
             (BCdeSession_init key sec default_api_credits) w false eq_refl).
  rewrite Hup. cbn [json_result status_code json Z.eqb Pos.eqb].
  assert (Hd : truthy (VDict d) = true)
    by (destruct d; [discriminate | reflexivity]).
  rewrite Hd. cbn [subscript]. rewrite Hc. cbn [fst snd]. rewrite Hd.
  rewrite persist_eq. unfold batch, rows_of. cbn [subscript]. rewrite Ht.
  split; reflexivity.
Qed.

(** X23: what the loop body writes.  When [persist_row] returns for a
    row, it has written exactly one row: under the key [int(row['tid'])],
    with the record's [tid], [price] and [amount] and the answer's
    [trading_pair] as they came, and with a timestamp labelled UTC whose
    wall-clock reading is the host's local time at the record's Unix time
    [t = float(row['date'])].  That timestamp denotes the instant
    [t + local_utcoffset host t]; on a host whose local time is UTC it is
    [t] itself. *)
Theorem persist_row_stores_shifted_instant
    (new_trades row : value) (db db' : Table) :
  persist_row new_trades row db = (Ok tt, db') ->
  exists k d t r_tid r_price r_amount r_pair,
    subscript row "date" = Ok d /\ py_float d = Ok t /\
    subscript row "tid" = Ok r_tid /\ prep_tid r_tid = Ok (Some k) /\
    subscript row "price" = Ok r_price /\
    subscript row "amount" = Ok r_amount /\
    subscript new_trades "trading_pair" = Ok r_pair /\
    let inst :=
      {| trading_pair := r_pair;
         date := {| wall := t + local_utcoffset host t;
                    tzinfo := Some timezone_utc |};
         price := r_price;
         amount := r_amount;
         tid := r_tid |} in
    db' = <[k := inst]> db /\
    instant (date inst) = Some (t + local_utcoffset host t) /\
    (local_utcoffset host t = 0 -> instant (date inst) = Some t).
Proof.
  unfold persist_row, save, bind, of_result, raise, ret.
  destruct (subscript row "date") as [d|] eqn:Hd; [|discriminate].
  destruct (py_float d) as [t|] eqn:Ht; [|discriminate].
  unfold datetime_fromtimestamp.
  destruct (fromtimestamp_rejects host t); [discriminate|].
  destruct (subscript row "tid") as [r_tid|] eqn:Htid; [|discriminate].
  destruct (subscript row "price") as [r_price|] eqn:Hp; [|discriminate].
  destruct (subscript row "amount") as [r_amount|] eqn:Ha; [|discriminate].
  destruct (subscript new_trades "trading_pair") as [r_pair|] eqn:Hpair;
    [|discriminate].
  cbn [tid]. destruct (prep_tid r_tid) as [[k|]|] eqn:Hk; try discriminate.
  destruct (backend_rejects _); [discriminate|].
  intros [= <-].
  exists k, d, t, r_tid, r_price, r_amount, r_pair.
  do 7 (split; [first [assumption | reflexivity]|]). cbv zeta.
  unfold instant, replace_tzinfo, timezone_utc. cbn.
  split; [reflexivity|]. split; [f_equal; lia|].
  intros H0. f_equal. lia.
Qed.

End PriceChart.

(** * Examples on the sample inputs *)

Import Fixtures.

(** The parameters [b=1] and [a=x], signed in the order [a=x?b=1]. *)
Lemma generate_api_signature_spec_witness :
  Permutation ["a=x"; "b=1"]
    (map render_param (items_of (Some [("b", AInt 1); ("a", AStr "x")]))) /\
  Sorted str_le ["a=x"; "b=1"] /\
  generate_api_signature tag_md5 tag_hmac
    (BCdeSession_init "PUB" "PRIV" default_api_credits)
    "GET" "https://api.bitcoin.de/v2/orders" "1500000000"
    (Some [("b", AInt 1); ("a", AStr "x")])
  = tag_hmac "PRIV"
      ("GET#https://api.bitcoin.de/v2/orders#PUB#1500000000#"
         ++ tag_md5 "a=x?b=1").
Proof.
  assert (Hp : Permutation ["a=x"; "b=1"]
                 (map render_param
                    (items_of (Some [("b", AInt 1); ("a", AStr "x")]))))
    by apply perm_swap.
  assert (Hs : Sorted str_le ["a=x"; "b=1"])
    by (repeat constructor).
  split; [exact Hp|]. split; [exact Hs|].
  destruct (generate_api_signature_spec tag_md5 tag_hmac
              (BCdeSession_init "PUB" "PRIV" default_api_credits)
              "GET" "https://api.bitcoin.de/v2/orders" "1500000000"
              (Some [("b", AInt 1); ("a", AStr "x")])) as [_ H].
  destruct (H ["a=x"; "b=1"] Hp Hs) as [_ E]. exact E.
Defined.

(** An unreachable network: the exception reaches the caller of
    [get_public_trade_history]. *)
Lemma transport_error_escalates_witness :
  (forall rq, unreachable (calls world0) rq = Fails ConnectionError) /\
  lt_3 default_api_credits = Ok false /\
  fst (get_public_trade_history unreachable tag_md5 tag_hmac None
         default_trading_pair
         (BCdeSession_init "K" "S" default_api_credits, world0))
  = Raise ConnectionError.
Proof.
  split; [reflexivity|]. split; [reflexivity|].
  apply (transport_error_escalates unreachable tag_md5 tag_hmac
           "https://api.bitcoin.de/v2/trades/history" None None
           default_trading_pair
           (BCdeSession_init "K" "S" default_api_credits) world0
           ConnectionError false); reflexivity.
Defined.

(** The request for the trades after id 7. *)
Lemma get_public_trade_history_url_witness :
  lt_3 default_api_credits = Ok false /\
  exists headers,
    calls (snd (snd (get_public_trade_history (ok_with history_567)
                       tag_md5 tag_hmac (Some 7) default_trading_pair
                       (BCdeSession_init "K" "S" default_api_credits,
                        world0))))
    = [mkRequest
         "https://api.bitcoin.de/v2/trades/history?trading_pair=btceur&since_tid=7"
         (Some headers)].
Proof.
  split; [reflexivity|].
  destruct (get_public_trade_history_url (ok_with history_567) tag_md5
              tag_hmac (Some 7) default_trading_pair
              (BCdeSession_init "K" "S" default_api_credits) world0 false
              eq_refl) as [_ H].
  destruct (H 7 eq_refl) as [headers Hc]; [lia|].
  exists headers. exact Hc.
Defined.

(** A session that holds 2 credits learns that 17 are left. *)
Lemma query_overwrites_api_credits_witness :
  lt_3 (VInt 2) = Ok true /\
  (forall rq, ok_with history_567 (calls world0) rq
              = Answers (mkResponse 200 (Some history_567))) /\
  truthy history_567 = true /\
  subscript history_567 "credits" = Ok (VInt 17) /\
  api_credits
    (fst (snd (query (ok_with history_567) tag_md5 tag_hmac
                 "https://api.bitcoin.de/v2/trades/history?trading_pair=btceur"
                 "GET" None None
                 (BCdeSession_init "K" "S" (VInt 2), world0))))
  = VInt 17.
Proof.
  repeat (split; [reflexivity|]).
  destruct (query_overwrites_api_credits (ok_with history_567) tag_md5
              tag_hmac
              "https://api.bitcoin.de/v2/trades/history?trading_pair=btceur"
              "GET" None None (BCdeSession_init "K" "S" (VInt 2)) world0)
    as [_ H].
  destruct (H true history_567 (VInt 17) eq_refl (fun _ => eq_refl) eq_refl
              eq_refl) as [_ Hc].
  exact Hc.
Defined.

(** A non-empty answer without ["credits"]. *)
Lemma query_missing_credits_raises_KeyError_witness :
  lt_3 default_api_credits = Ok false /\
  (forall rq, ok_with no_credits (calls world0) rq
              = Answers (mkResponse 200
                           (Some (VDict [("trades", VList [])])))) /\
  [("trades", VList [])] <> [] /\
  dict_get "credits" [("trades", VList [])] = None /\
  fst (query (ok_with no_credits) tag_md5 tag_hmac
         "https://api.bitcoin.de/v2/trades/history?trading_pair=btceur"
         "GET" None None
         (BCdeSession_init "K" "S" default_api_credits, world0))
  = Raise (KeyError "credits").
Proof.
  split; [reflexivity|]. split; [reflexivity|].
  split; [discriminate|]. split; [reflexivity|].
  apply (query_missing_credits_raises_KeyError (ok_with no_credits) tag_md5
           tag_hmac _ _ None None _ world0 false
           [("trades", VList [])]);
    [reflexivity|reflexivity|discriminate|reflexivity].
Defined.

Lemma history_567_reports_nonneg :
  reported_credits (ok_with history_567) (fun c => nonneg_int c = true).
Proof.
  intros hist rq r body c Hup Hj Hc.
  injection Hup as <-. injection Hj as <-. injection Hc as <-. reflexivity.
Defined.

(** Two successful calls against a server that reports 17 credits. *)
Lemma api_credits_initial_or_last_reported_witness :
  reported_credits (ok_with history_567) (fun c => nonneg_int c = true) /\
  nonneg_int default_api_credits = true /\
  last (successes (ok_with history_567) tag_md5 tag_hmac
          [OpTradeHistory None default_trading_pair;
           OpTradeHistory (Some 7) default_trading_pair]
          (BCdeSession_init "K" "S" default_api_credits, world0))
  = Some history_567 /\
  subscript history_567 "credits"
  = Ok (api_credits
          (fst (perform_all (ok_with history_567) tag_md5 tag_hmac
                  [OpTradeHistory None default_trading_pair;
                   OpTradeHistory (Some 7) default_trading_pair]
                  (BCdeSession_init "K" "S" default_api_credits, world0)))) /\
  nonneg_int
    (api_credits
       (fst (perform_all (ok_with history_567) tag_md5 tag_hmac
               [OpTradeHistory None default_trading_pair;
                OpTradeHistory (Some 7) default_trading_pair]
               (BCdeSession_init "K" "S" default_api_credits, world0))))
  = true.
Proof.
  assert (Hl : last (successes (ok_with history_567) tag_md5 tag_hmac
                       [OpTradeHistory None default_trading_pair;
                        OpTradeHistory (Some 7) default_trading_pair]
                       (BCdeSession_init "K" "S" default_api_credits, world0))
               = Some history_567) by reflexivity.
  destruct (api_credits_initial_or_last_reported (ok_with history_567)
              tag_md5 tag_hmac
              [OpTradeHistory None default_trading_pair;
               OpTradeHistory (Some 7) default_trading_pair]
              "K" "S" default_api_credits world0) as (H1 & _ & H3).
  cbv zeta in H1, H3. rewrite Hl in H1.
  split; [exact history_567_reports_nonneg|]. split; [reflexivity|].
  split; [exact Hl|]. split; [exact H1|].
  exact (H3 history_567_reports_nonneg eq_refl).
Defined.

(** C8 as stated fails: a server that reports [-1] credits leaves the
    counter of a session that started at the default 20 at [-1], and a
    session built with the initial value [-1] holds [-1] from the start. *)
Lemma api_credits_negative_after_query :
  api_credits
    (fst (perform_all (ok_with overdrawn) tag_md5 tag_hmac
            [OpTradeHistory None default_trading_pair]
            (BCdeSession_init "K" "S" default_api_credits, world0)))
  = VInt (-1) /\
  ~ (nonneg_int
       (api_credits
          (fst (perform_all (ok_with overdrawn) tag_md5 tag_hmac
                  [OpTradeHistory None default_trading_pair]
                  (BCdeSession_init "K" "S" default_api_credits, world0))))
     = true) /\
  ~ (nonneg_int
       (api_credits
          (fst (perform_all unreachable tag_md5 tag_hmac []
                  (BCdeSession_init "K" "S" (VInt (-1)), world0))))
     = true).
Proof. split; [reflexivity|]. split; vm_compute; discriminate. Qed.


(** C5, where the code departs from it: the trade made at Unix time 0 is
    stored, on a host one hour east of UTC, with the UTC-labelled time
    01:00:00 of that day, the instant 3600; only a host whose local time is
    UTC stores the instant 0. *)
Theorem stored_timestamp_depends_on_host_zone :
  (date <$> fst (snd (persist host_cet accept_all history_epoch
                        (∅, world0))) !! 5)
  = Some {| wall := 3600; tzinfo := Some timezone_utc |} /\
  instant {| wall := 3600; tzinfo := Some timezone_utc |} = Some 3600 /\
  (date <$> fst (snd (persist host_utc accept_all history_epoch
                        (∅, world0))) !! 5)
  = Some {| wall := 0; tzinfo := Some timezone_utc |} /\
  instant {| wall := 0; tzinfo := Some timezone_utc |} = Some 0.
Proof. repeat split; vm_compute; reflexivity. Qed.

(** The end-to-end scenario of the specification: an empty table and the
    ids 5, 6 and 7 from upstream. *)
Example data_ingests_567 :
  let out := data (ok_with history_567) tag_md5 tag_hmac host_utc accept_all
               form (∅, world0) in
  match fst out with
  | Ok c => Some (map tid (ctx_data c), ctx_num_total c)
  | Raise _ => None
  end = Some ([VInt 5; VInt 6; VInt 7], 3%nat) /\
  aggregate_max_tid (fst (snd out)) = [("tid__max", Some 7)].
Proof. split; vm_compute; reflexivity. Qed.

(** The redelivery scenario: id 7 is stored, upstream sends 7 and 8. *)
Example data_redelivery_78 :
  let first := data (ok_with history_567) tag_md5 tag_hmac host_utc
                 accept_all form (∅, world0) in
  let again := data (ok_with history_78) tag_md5 tag_hmac host_utc
                 accept_all form (snd first) in
  match fst again with
  | Ok c => Some (map tid (ctx_data c), ctx_num_total c)
  | Raise _ => None
  end = Some ([VInt 5; VInt 6; VInt 7; VInt 8], 4%nat) /\
  req_url <$> last (calls (snd (snd again)))
  = Some "https://api.bitcoin.de/v2/trades/history?trading_pair=btceur&since_tid=7".
Proof. repeat split; vm_compute; reflexivity. Qed.

(** * Examples for the further properties *)

(** [{"b": 1, "a": "x"}] and [{"a": "x", "b": "1"}] sign alike. *)
Lemma generate_api_signature_depends_on_renderings_witness :
  Permutation (map render_param [("b", AInt 1); ("a", AStr "x")])
              (map render_param [("a", AStr "x"); ("b", AStr "1")]) /\
  generate_api_signature tag_md5 tag_hmac
    (BCdeSession_init "PUB" "PRIV" default_api_credits)
    "GET" "https://api.bitcoin.de/v2/orders" "1500000000"
    (Some [("b", AInt 1); ("a", AStr "x")])
  = generate_api_signature tag_md5 tag_hmac
      (BCdeSession_init "PUB" "PRIV" default_api_credits)
      "GET" "https://api.bitcoin.de/v2/orders" "1500000000"
      (Some [("a", AStr "x"); ("b", AStr "1")]).
Proof.
  assert (Hp : Permutation
                 (map render_param [("b", AInt 1); ("a", AStr "x")])
                 (map render_param [("a", AStr "x"); ("b", AStr "1")]))
    by apply perm_swap.
  split; [exact Hp|].
  exact (generate_api_signature_depends_on_renderings tag_md5 tag_hmac
           _ _ _ _ _ _ Hp).
Defined.

(** The value ["x?b=1"] of [a] signs like the two parameters [a], [b]. *)
Lemma generate_api_signature_query_not_escaped_witness :
  str_le ("a" ++ "=" ++ "x") ("b" ++ "=" ++ py_str (AInt 1)) /\
  generate_api_signature tag_md5 tag_hmac
    (BCdeSession_init "PUB" "PRIV" default_api_credits)
    "GET" "https://api.bitcoin.de/v2/orders" "1500000000"
    (Some [("a", AStr ("x" ++ "?" ++ "b" ++ "=" ++ py_str (AInt 1)))])
  = generate_api_signature tag_md5 tag_hmac
      (BCdeSession_init "PUB" "PRIV" default_api_credits)
      "GET" "https://api.bitcoin.de/v2/orders" "1500000000"
      (Some [("a", AStr "x"); ("b", AInt 1)]).
Proof.
  assert (Hle : str_le ("a" ++ "=" ++ "x") ("b" ++ "=" ++ py_str (AInt 1)))
    by reflexivity.
  split; [exact Hle|].
  exact (generate_api_signature_query_not_escaped tag_md5 tag_hmac
           _ _ _ _ "a" "x" "b" (AInt 1) Hle).
Defined.

(** A caller's own [X-API-KEY] is replaced, its [Accept] header kept. *)
Lemma query_sends_api_headers_witness :
  lt_3 (VInt 2) = Ok true /\
  exists sent : Headers,
    calls (snd (snd (query (ok_with history_567) tag_md5 tag_hmac
                       "https://api.bitcoin.de/v2/orders" "GET" None
                       (Some [("X-API-KEY", "mine"); ("Accept", "text/json")])
                       (BCdeSession_init "K" "S" (VInt 2), world0))))
    = [mkRequest "https://api.bitcoin.de/v2/orders" (Some sent)] /\
    dict_get "X-API-KEY" sent = Some "K" /\
    dict_get "X-API-NONCE" sent = Some "1500000003" /\
    dict_get "Accept" sent = Some "text/json".
Proof.
  split; [reflexivity|].
  destruct (query_sends_api_headers (ok_with history_567) tag_md5 tag_hmac
              "https://api.bitcoin.de/v2/orders" "GET" None
              (Some [("X-API-KEY", "mine"); ("Accept", "text/json")])
              (BCdeSession_init "K" "S" (VInt 2)) world0 true eq_refl)
    as (sent & Hcalls & Hkey & Hnonce & _ & Hother).
  exists sent. split; [exact Hcalls|]. split; [exact Hkey|].
  split; [exact Hnonce|].
  rewrite (Hother "Accept"); [reflexivity|discriminate..].
Defined.

(** With 2 credits left the call ends 3 seconds later. *)
Lemma query_sleeps_iff_low_witness :
  api_credits (BCdeSession_init "K" "S" (VInt 2)) = VInt 2 /\
  clock (snd (snd (query (ok_with history_567) tag_md5 tag_hmac
                     "https://api.bitcoin.de/v2/orders" "GET" None None
                     (BCdeSession_init "K" "S" (VInt 2), world0))))
  = 1500000003.
Proof.
  split; [reflexivity|].
  exact (query_sleeps_iff_low (ok_with history_567) tag_md5 tag_hmac
           "https://api.bitcoin.de/v2/orders" "GET" None None
           (BCdeSession_init "K" "S" (VInt 2)) world0 2 eq_refl).
Defined.

(** The data of a 200 answer. *)
Lemma query_json_data_only_from_200_witness :
  fst (query_json (ok_with marketinfo_rate)
         "https://shapeshift.io/marketinfo/btc_eth" None world0)
  = Ok marketinfo_rate /\
  marketinfo_rate <> VNone /\
  exists r,
    ok_with marketinfo_rate (calls world0)
      (mkRequest "https://shapeshift.io/marketinfo/btc_eth" None)
    = Answers r /\
    status_code r = 200 /\ json r = Some marketinfo_rate.
Proof.
  assert (H1 : fst (query_json (ok_with marketinfo_rate)
                      "https://shapeshift.io/marketinfo/btc_eth" None world0)
               = Ok marketinfo_rate) by reflexivity.
  assert (H2 : marketinfo_rate <> VNone) by discriminate.
  split; [exact H1|]. split; [exact H2|].
  exact (proj1 (query_json_data_only_from_200 (ok_with marketinfo_rate)
                  _ _ _ _ H1 H2)).
Defined.

(** 50 transactions are requested, 51 are not. *)
Lemma recent_tx_requests_iff_in_range_witness :
  0 <= 50 <= 50 /\
  (51 < 0 \/ 50 < 51) /\
  calls (snd (recent_tx http_500 (Shapeshift_init None) 50 world0))
  = [mkRequest "https://shapeshift.io/recenttx/50" None] /\
  recent_tx http_500 (Shapeshift_init None) 51 world0 = (Ok VNone, world0).
Proof.
  assert (H1 : 0 <= 50 <= 50) by lia.
  assert (H2 : 51 < 0 \/ 50 < 51) by lia.
  split; [exact H1|]. split; [exact H2|]. split.
  - exact (proj1 (recent_tx_requests_iff_in_range http_500
                    (Shapeshift_init None) 50 world0) H1).
  - exact (proj2 (recent_tx_requests_iff_in_range http_500
                    (Shapeshift_init None) 51 world0) H2).
Defined.

(** A rate is handed on as it came; a list of messages is not handled. *)
Lemma get_marketinfo_returns_no_error_witness :
  fst (get_marketinfo (ok_with marketinfo_rate) (Shapeshift_init None)
         "btc" "eth" world0)
  = Ok marketinfo_rate /\
  (marketinfo_rate = VNone \/
   (truthy marketinfo_rate = true /\
    py_in "error" marketinfo_rate = Ok false)) /\
  (forall rq, ok_with (VList [VStr "error"]) (calls world0) rq
              = Answers (mkResponse 200 (Some (VList [VStr "error"])))) /\
  py_in "error" (VList [VStr "error"]) = Ok true /\
  fst (get_marketinfo (ok_with (VList [VStr "error"])) (Shapeshift_init None)
         "btc" "eth" world0)
  = Raise TypeError.
Proof.
  assert (H : fst (get_marketinfo (ok_with marketinfo_rate)
                     (Shapeshift_init None) "btc" "eth" world0)
              = Ok marketinfo_rate) by reflexivity.
  split; [exact H|]. split.
  - exact (proj1 (get_marketinfo_returns_no_error (ok_with marketinfo_rate)
                    (Shapeshift_init None) "btc" "eth" world0)
                 marketinfo_rate H).
  - split; [reflexivity|]. split; [reflexivity|].
    exact (proj2 (get_marketinfo_returns_no_error
                    (ok_with (VList [VStr "error"]))
                    (Shapeshift_init None) "btc" "eth" world0)
                 (VList [VStr "error"]) (fun _ => eq_refl)
                 (or_introl (ex_intro _ [VStr "error"] eq_refl)) eq_refl).
Defined.

(** An error object becomes [None]. *)
Lemma get_marketinfo_error_object_is_none_witness :
  (forall rq, ok_with marketinfo_error (calls world0) rq
              = Answers (mkResponse 200
                           (Some (VDict [("error", VStr "Unknown pair")])))) /\
  dict_get "error" [("error", VStr "Unknown pair")]
  = Some (VStr "Unknown pair") /\
  fst (get_marketinfo (ok_with marketinfo_error) (Shapeshift_init None)
         "btc" "xyz" world0)
  = Ok VNone.
Proof.
  split; [reflexivity|]. split; [reflexivity|].
  exact (get_marketinfo_error_object_is_none (ok_with marketinfo_error)
           (Shapeshift_init None) "btc" "xyz" world0
           [("error", VStr "Unknown pair")] (VStr "Unknown pair")
           (fun _ => eq_refl) eq_refl).
Defined.

(** The body [5]. *)
Lemma get_marketinfo_scalar_body_raises_witness :
  (forall rq, ok_with (VInt 5) (calls world0) rq
              = Answers (mkResponse 200 (Some (VInt 5)))) /\
  ((exists n, VInt 5 = VInt n /\ n <> 0) \/ VInt 5 = VBool true) /\
  fst (get_marketinfo (ok_with (VInt 5)) (Shapeshift_init None)
         "btc" "eth" world0)
  = Raise TypeError.
Proof.
  assert (H : (exists n, VInt 5 = VInt n /\ n <> 0) \/ VInt 5 = VBool true)
    by (left; exists 5; split; [reflexivity | lia]).
  split; [reflexivity|]. split; [exact H|].
  exact (get_marketinfo_scalar_body_raises (ok_with (VInt 5))
           (Shapeshift_init None) "btc" "eth" world0 (VInt 5)
           (fun _ => eq_refl) H).
Defined.

(** [orderbook(maxlist=10)]. *)
Lemma xcrypto_integer_limit_raises_witness :
  10 <> 0 /\
  orderbook http_500 XCrypto_init "btc" "eur" (AInt 10) world0
  = (Raise TypeError, world0) /\
  trades http_500 XCrypto_init "btc" "eur" (AInt 10) world0
  = (Raise TypeError, world0).
Proof.
  assert (H : 10 <> 0) by lia.
  split; [exact H|].
  exact (xcrypto_integer_limit_raises http_500 XCrypto_init "btc" "eur" 10
           world0 H).
Defined.

(** A form with an empty secret. *)
Lemma data_without_credentials_only_renders_witness :
  ([("key", "K"); ("sec", "")] = [] \/
   dict_get "key" [("key", "K"); ("sec", "")] = Some "" \/
   (exists key, dict_get "key" [("key", "K"); ("sec", "")] = Some key /\
                dict_get "sec" [("key", "K"); ("sec", "")] = Some "")) /\
  snd (data (ok_with history_567) tag_md5 tag_hmac host_utc accept_all
         [("key", "K"); ("sec", "")] (∅, world0))
  = (∅, world0).
Proof.
  assert (H : [("key", "K"); ("sec", "")] = [] \/
              dict_get "key" [("key", "K"); ("sec", "")] = Some "" \/
              (exists key,
                 dict_get "key" [("key", "K"); ("sec", "")] = Some key /\
                 dict_get "sec" [("key", "K"); ("sec", "")] = Some ""))
    by (right; right; exists "K"; split; reflexivity).
  split; [exact H|].
  exact (proj1 (data_without_credentials_only_renders (ok_with history_567)
                  tag_md5 tag_hmac host_utc accept_all
                  [("key", "K"); ("sec", "")] (∅, world0) H)).
Defined.

(** A form that carries only a CSRF token. *)
Lemma data_missing_field_raises_KeyError_witness :
  [("csrfmiddlewaretoken", "t")] <> [] /\
  dict_get "key" [("csrfmiddlewaretoken", "t")] = None /\
  data (ok_with history_567) tag_md5 tag_hmac host_utc accept_all
    [("csrfmiddlewaretoken", "t")] (∅, world0)
  = (Raise (KeyError "key"), (∅, world0)).
Proof.
  assert (H : [("csrfmiddlewaretoken", "t")] <> []) by discriminate.
  split; [exact H|]. split; [reflexivity|].
  exact (proj1 (data_missing_field_raises_KeyError (ok_with history_567)
                  tag_md5 tag_hmac host_utc accept_all
                  [("csrfmiddlewaretoken", "t")] (∅, world0) H) eq_refl).
Defined.

(** The page after the first ingestion: three rows, all shown. *)
Lemma data_shows_last_100_witness :
  fst (data (ok_with history_567) tag_md5 tag_hmac host_utc accept_all form
         (∅, world0))
  = Ok {| ctx_data := [stored 5 1500000100; stored 6 1500000200;
                       stored 7 1500000300];
          ctx_num_total := 3 |} /\
  3%nat = size (fst (snd (data (ok_with history_567) tag_md5 tag_hmac
                            host_utc accept_all form (∅, world0)))).
Proof.
  assert (H : fst (data (ok_with history_567) tag_md5 tag_hmac host_utc
                     accept_all form (∅, world0))
              = Ok {| ctx_data := [stored 5 1500000100; stored 6 1500000200;
                                   stored 7 1500000300];
                      ctx_num_total := 3 |})
    by (vm_compute; reflexivity).
  split; [exact H|].
  exact (proj1 (data_shows_last_100 (ok_with history_567) tag_md5 tag_hmac
                  host_utc accept_all form (∅, world0) _ H)).
Defined.

(** Trade 7 is still there after 7 and 8 were delivered. *)
Lemma data_never_deletes_witness :
  is_Some (fst (<[7 := stored 7 1500000300]> (∅ : Table), world0) !! 7) /\
  is_Some (fst (snd (data (ok_with history_78) tag_md5 tag_hmac host_utc
                       accept_all form
                       (<[7 := stored 7 1500000300]> ∅, world0))) !! 7).
Proof.
  assert (H : is_Some (fst (<[7 := stored 7 1500000300]> (∅ : Table), world0)
                       !! 7))
    by (exists (stored 7 1500000300); reflexivity).
  split; [exact H|].
  exact (data_never_deletes (ok_with history_78) tag_md5 tag_hmac host_utc
           accept_all form (<[7 := stored 7 1500000300]> ∅, world0) 7 H).
Defined.

(** The mark 7 does not fall when 7 and 8 are delivered. *)
Lemma high_water_mark_never_falls_witness :
  high_water_mark (fst (<[7 := stored 7 1500000300]> (∅ : Table), world0))
  = Some 7 /\
  exists m',
    high_water_mark
      (fst (snd (data (ok_with history_78) tag_md5 tag_hmac host_utc
                   accept_all form
                   (<[7 := stored 7 1500000300]> ∅, world0))))
    = Some m' /\ 7 <= m'.
Proof.
  assert (H : high_water_mark
                (fst (<[7 := stored 7 1500000300]> (∅ : Table), world0))
              = Some 7) by reflexivity.
  split; [exact H|].
  exact (high_water_mark_never_falls (ok_with history_78) tag_md5 tag_hmac
           host_utc accept_all form
           (<[7 := stored 7 1500000300]> ∅, world0) 7 H).
Defined.

(** Trade 5 is not touched by the batch with 7 and 8. *)
Lemma persist_leaves_other_rows_witness :
  (forall kvs, batch host_utc accept_all history_78 = Ok kvs ->
               5 ∉ map fst kvs) /\
  fst (snd (persist host_utc accept_all history_78
              (<[5 := stored 5 1500000100]> ∅, world0))) !! 5
  = Some (stored 5 1500000100).
Proof.
  assert (H : forall kvs, batch host_utc accept_all history_78 = Ok kvs ->
                          5 ∉ map fst kvs).
  { intros kvs Hb. vm_compute in Hb. injection Hb as <-. simpl.
    rewrite !not_elem_of_cons. repeat split; [lia | lia |].
    apply not_elem_of_nil. }
  split; [exact H|].
  rewrite (persist_leaves_other_rows host_utc accept_all history_78
             (<[5 := stored 5 1500000100]> ∅, world0) 5 H).
  reflexivity.
Defined.

(** Id 5 delivered twice: the later record is the one stored. *)
Lemma persist_last_row_wins_witness :
  batch host_utc accept_all history_55
  = Ok ([(5, stored 5 1500000100)] ++ (5, stored 5 1500000900) :: [])%list /\
  (5 ∉ map fst ([] : list (Z * BitcoinDe))) /\
  fst (snd (persist host_utc accept_all history_55 (∅, world0))) !! 5
  = Some (stored 5 1500000900).
Proof.
  assert (Hb : batch host_utc accept_all history_55
               = Ok ([(5, stored 5 1500000100)]
                       ++ (5, stored 5 1500000900) :: [])%list)
    by (vm_compute; reflexivity).
  assert (Hk : 5 ∉ map fst ([] : list (Z * BitcoinDe)))
    by apply not_elem_of_nil.
  split; [exact Hb|]. split; [exact Hk|].
  exact (proj2 (persist_last_row_wins host_utc accept_all history_55
                  (∅, world0) _ _ 5 _ Hb Hk)).
Defined.

(** An answer that only reports credits. *)
Lemma data_answer_without_trades_raises_witness :
  dict_get "key" form = Some "K" /\ ("K" <> "") /\
  dict_get "sec" form = Some "S" /\ ("S" <> "") /\
  (forall rq, ok_with credits_only (calls world0) rq
              = Answers (mkResponse 200
                           (Some (VDict [("credits", VInt 17)])))) /\
  dict_get "credits" [("credits", VInt 17)] = Some (VInt 17) /\
  dict_get "trades" [("credits", VInt 17)] = None /\
  fst (data (ok_with credits_only) tag_md5 tag_hmac host_utc accept_all form
         (∅, world0))
  = Raise (KeyError "trades").
Proof.
  assert (H1 : "K" <> "") by discriminate.
  assert (H2 : "S" <> "") by discriminate.
  split; [reflexivity|]. split; [exact H1|]. split; [reflexivity|].
  split; [exact H2|]. split; [reflexivity|]. split; [reflexivity|].
  split; [reflexivity|].
  exact (proj1 (data_answer_without_trades_raises (ok_with credits_only)
                  tag_md5 tag_hmac host_utc accept_all form ∅ world0
                  "K" "S" [("credits", VInt 17)] (VInt 17)
                  eq_refl H1 eq_refl H2 (fun _ => eq_refl) eq_refl eq_refl)).
Defined.

(** The trade made at Unix time 0, stored on a host one hour east. *)
Lemma persist_row_stores_shifted_instant_witness :
  persist_row host_cet accept_all history_epoch (trade 5 0) ∅
  = (Ok tt, <[5 := stored 5 3600]> ∅) /\
  exists k d t r_tid,
    subscript (trade 5 0) "date" = Ok d /\ py_float host_cet d = Ok t /\
    subscript (trade 5 0) "tid" = Ok r_tid /\
    prep_tid host_cet r_tid = Ok (Some k) /\
    exists inst,
      <[5 := stored 5 3600]> (∅ : Table) = <[k := inst]> ∅ /\
      tid inst = r_tid /\
      instant (date inst) = Some (t + local_utcoffset host_cet t).
Proof.
  assert (H : persist_row host_cet accept_all history_epoch (trade 5 0) ∅
              = (Ok tt, <[5 := stored 5 3600]> ∅)) by reflexivity.
  split; [exact H|].
  destruct (persist_row_stores_shifted_instant host_cet accept_all
              history_epoch (trade 5 0) ∅ _ H)
    as (k & d & t & r_tid & r_price & r_amount & r_pair
        & Hd & Ht & Htid & Hk & _ & _ & _ & E & Hi & _).
  exists k, d, t, r_tid. repeat (split; [assumption|]).
  eexists. split; [exact E|]. split; [reflexivity|exact Hi].
Defined.
